(** * Habit tracker: habit registry, completion log and day-status aggregation

    Shallow embedding of [HabitService] (src/src/services/habit.service.ts),
    [HabitLogService] (the filtering variant, src/unnamed/part_008) and the
    colour classification of [DayCell] (src/src/components/features/DayCell.tsx).

    Conventions of the embedding:
    - JS strings are [string], JS numbers used as counters are [nat];
    - a JS value of type [boolean | undefined] is [option bool]
      ([None] is [undefined]); an optional array argument is [option (list _)];
    - a JS [Map] with string keys is an association list kept in insertion
      order ([map_set] overwrites in place, appends a new key at the end);
    - the persisted blob read by [getState] and written by [saveState] is an
      explicit [HabitAppState] passed in and returned. *)

From Stdlib Require Import List String Ascii Bool Arith Lia.
Import ListNotations.
Open Scope string_scope.
Open Scope list_scope.

(** ** Data model (src/src/types/habit.types.ts) *)

Record HabitReminder := mkHabitReminder {
  enabled : bool;
  time : string
}.

Record Habit := mkHabit {
  id : string;
  name : string;
  color : string;
  mandatory : bool;
  createdAt : string;
  reminder : option HabitReminder
}.

Record HabitLog := mkHabitLog {
  habitId : string;
  date : string;
  completed : bool
}.

(** [settings] is carried along untouched by every operation modelled here. *)
Record HabitSettings := mkHabitSettings {
  notificationsEnabled : bool;
  currentYear : nat
}.

Record HabitAppState := mkHabitAppState {
  habits : list Habit;
  logs : list HabitLog;
  settings : HabitSettings
}.

Module DayStatus.
Record t := mk {
    date : string;
    mandatoryCompleted : nat;
    mandatoryTotal : nat;
    optionalCompleted : nat;
    optionalTotal : nat;
    completedColors : list string;
    isFiltered : option bool
  }.
End DayStatus.

Module CreateHabitData.
Record t := mk {
    name : string;
    color : string;
    mandatory : bool;
    reminder : option HabitReminder
  }.
End CreateHabitData.

(** A field of [UpdateHabitData] is [None] when its key is absent from the
    object; [reminder] may be present with the value [undefined]. *)
Module UpdateHabitData.
Record t := mk {
    name : option string;
    color : option string;
    mandatory : option bool;
    reminder : option (option HabitReminder)
  }.
End UpdateHabitData.

(** ** JS helpers *)

(** [Array.prototype.findIndex]; [None] stands for [-1]. *)
Fixpoint findIndex {A} (p : A -> bool) (l : list A) : option nat :=
  match l with
  | [] => None
  | x :: r => if p x then Some 0 else option_map S (findIndex p r)
  end.

(** [arr[i] = f(arr[i])]: in-place update of one element. *)
Fixpoint modify_at {A} (i : nat) (f : A -> A) (l : list A) : list A :=
  match l, i with
  | [], _ => []
  | x :: r, 0 => f x :: r
  | x :: r, S j => x :: modify_at j f r
  end.

(** [Array.prototype.includes] on strings. *)
Definition includes (arr : list string) (x : string) : bool :=
  existsb (String.eqb x) arr.

(** JS truthiness of a [boolean | undefined] value. *)
Definition truthy (v : option bool) : bool :=
  match v with Some b => b | None => false end.

(** Decimal rendering of a non-negative integer, as in [`${year}`]. *)
Fixpoint digits_aux (fuel n : nat) (acc : string) : string :=
  match fuel with
  | 0 => acc
  | S f =>
      let acc' := String (ascii_of_nat (48 + n mod 10)) acc in
      if Nat.ltb n 10 then acc' else digits_aux f (n / 10) acc'
  end.

Definition string_of_nat (n : nat) : string := digits_aux (S n) n "".

(** ** Map<string, V> as an insertion-ordered association list *)

Fixpoint map_get {V} (k : string) (m : list (string * V)) : option V :=
  match m with
  | [] => None
  | (k', v) :: r => if String.eqb k k' then Some v else map_get k r
  end.

Definition map_has {V} (k : string) (m : list (string * V)) : bool :=
  match map_get k m with Some _ => true | None => false end.

Fixpoint map_set {V} (k : string) (v : V) (m : list (string * V)) : list (string * V) :=
  match m with
  | [] => [(k, v)]
  | (k', v') :: r => if String.eqb k k' then (k, v) :: r else (k', v') :: map_set k v r
  end.

(** ** HabitLogService (src/unnamed/part_008) *)

Module HabitLogService.

(** [log.habitId === habitId && log.date === date] *)
Definition matches (habitId0 date0 : string) (log : HabitLog) : bool :=
  String.eqb (habitId log) habitId0 && String.eqb (date log) date0.

Definition getLogs (st : HabitAppState) : list HabitLog := logs st.

Definition getLogsForYear (st : HabitAppState) (year : nat) : list HabitLog :=
  let yearPrefix := String.append (string_of_nat year) "-" in
  filter (fun log => String.prefix yearPrefix (date log)) (getLogs st).

Definition isCompleted (st : HabitAppState) (habitId0 date0 : string) : bool :=
  match find (matches habitId0 date0) (getLogs st) with
  | Some log => completed log
  | None => false
  end.

Definition with_logs (st : HabitAppState) (l : list HabitLog) : HabitAppState :=
  mkHabitAppState (habits st) l (settings st).

Definition flip_completed (log : HabitLog) : HabitLog :=
  mkHabitLog (habitId log) (date log) (negb (completed log)).

Definition set_completed (b : bool) (log : HabitLog) : HabitLog :=
  mkHabitLog (habitId log) (date log) b.

(** Returns the new status and the saved state. *)
Definition toggleCompletion (st : HabitAppState) (habitId0 date0 : string)
  : bool * HabitAppState :=
  match findIndex (matches habitId0 date0) (logs st) with
  | None =>
      (true, with_logs st (logs st ++ [mkHabitLog habitId0 date0 true]))
  | Some i =>
      let logs' := modify_at i flip_completed (logs st) in
      (match nth_error logs' i with Some l => completed l | None => false end,
       with_logs st logs')
  end.

Definition setCompletion (st : HabitAppState) (habitId0 date0 : string) (b : bool)
  : HabitAppState :=
  match findIndex (matches habitId0 date0) (logs st) with
  | None => with_logs st (logs st ++ [mkHabitLog habitId0 date0 b])
  | Some i => with_logs st (modify_at i (set_completed b) (logs st))
  end.

(** [habitFilter && habitFilter.length > 0] as a JS value. *)
Definition isFilterActive (habitFilter : option (list string)) : option bool :=
  match habitFilter with
  | None => None
  | Some f => Some (Nat.ltb 0 (List.length f))
  end.

Definition activeHabits (habitFilter : option (list string)) (habits0 : list Habit)
  : list Habit :=
  match habitFilter with
  | Some f => if Nat.ltb 0 (List.length f) then filter (fun h => includes f (id h)) habits0 else habits0
  | None => habits0
  end.

Definition activeLogs (habitFilter : option (list string)) (logs0 : list HabitLog)
  : list HabitLog :=
  match habitFilter with
  | Some f => if Nat.ltb 0 (List.length f) then filter (fun log => includes f (habitId log)) logs0 else logs0
  | None => logs0
  end.

(** One iteration of the grouping loop:
    [if (!logsByDate.has(log.date)) logsByDate.set(log.date, []);
     logsByDate.get(log.date)!.push(log);] *)
Definition group_step (m : list (string * list HabitLog)) (log : HabitLog)
  : list (string * list HabitLog) :=
  let m1 := if map_has (date log) m then m else map_set (date log) [] m in
  match map_get (date log) m1 with
  | Some arr => map_set (date log) (arr ++ [log]) m1
  | None => m1
  end.

Definition groupByDate (logs0 : list HabitLog) : list (string * list HabitLog) :=
  fold_left group_step logs0 [].

(** Body of [for (const log of dateLogs)]: accumulator is
    [(mandatoryCompleted, optionalCompleted, completedColors)]. *)
Definition count_step (activeHabits0 : list Habit) (acc : nat * nat * list string)
  (log : HabitLog) : nat * nat * list string :=
  let '(mc, oc, cols) := acc in
  if completed log then
    match find (fun h => String.eqb (id h) (habitId log)) activeHabits0 with
    | Some habit =>
        if mandatory habit then (S mc, oc, cols ++ [color habit])
        else (mc, S oc, cols ++ [color habit])
    | None => acc
    end
  else acc.

(** Body of [for (const [date, dateLogs] of logsByDate)]. *)
Definition date_step (habitFilter : option (list string)) (activeHabits0 : list Habit)
  (statusMap : list (string * DayStatus.t)) (entry : string * list HabitLog)
  : list (string * DayStatus.t) :=
  let '(date0, dateLogs) := entry in
  let mandatoryHabits := filter (fun h => mandatory h) activeHabits0 in
  let optionalHabits := filter (fun h => negb (mandatory h)) activeHabits0 in
  let '(mc, oc, completedColors) := fold_left (count_step activeHabits0) dateLogs (0, 0, []) in
  let isFA := isFilterActive habitFilter in
  if (Nat.ltb 0 (List.length completedColors)) || truthy isFA then
    map_set date0 (DayStatus.mk date0 mc (List.length mandatoryHabits) oc
                     (List.length optionalHabits) completedColors isFA) statusMap
  else if negb (truthy isFA) then
    map_set date0 (DayStatus.mk date0 mc (List.length mandatoryHabits) oc
                     (List.length optionalHabits) completedColors (Some false)) statusMap
  else statusMap.

Definition getDayStatusMap (st : HabitAppState) (year : nat) (habits0 : list Habit)
  (habitFilter : option (list string)) : list (string * DayStatus.t) :=
  let logs0 := getLogsForYear st year in
  let activeHabits0 := activeHabits habitFilter habits0 in
  let activeLogs0 := activeLogs habitFilter logs0 in
  fold_left (date_step habitFilter activeHabits0) (groupByDate activeLogs0) [].

End HabitLogService.

(** ** HabitService (src/src/services/habit.service.ts) *)

Module HabitService.

Definition with_habits (st : HabitAppState) (h : list Habit) : HabitAppState :=
  mkHabitAppState h (logs st) (settings st).

(** [generateId()] and [new Date().toISOString()] are effects of the
    environment; their results are passed in as [newId] and [now]. The object
    literal built by the source has no [reminder] key. *)
Definition createHabit (st : HabitAppState) (data : CreateHabitData.t)
  (newId now : string) : Habit * HabitAppState :=
  let newHabit := mkHabit newId (CreateHabitData.name data) (CreateHabitData.color data)
                    (CreateHabitData.mandatory data) now None in
  (newHabit, with_habits st (habits st ++ [newHabit])).

(** [{ ...habit, ...updates }] *)
Definition merge (updates : UpdateHabitData.t) (h : Habit) : Habit :=
  mkHabit (id h)
    (match UpdateHabitData.name updates with Some v => v | None => name h end)
    (match UpdateHabitData.color updates with Some v => v | None => color h end)
    (match UpdateHabitData.mandatory updates with Some v => v | None => mandatory h end)
    (createdAt h)
    (match UpdateHabitData.reminder updates with Some v => v | None => reminder h end).

Definition updateHabit (st : HabitAppState) (id0 : string) (updates : UpdateHabitData.t)
  : option Habit * HabitAppState :=
  match findIndex (fun h => String.eqb (id h) id0) (habits st) with
  | None => (None, st)
  | Some habitIndex =>
      let habits' := modify_at habitIndex (merge updates) (habits st) in
      (nth_error habits' habitIndex, with_habits st habits')
  end.

(** The state returned is the persisted one: on [false] nothing is saved. *)
Definition deleteHabit (st : HabitAppState) (id0 : string) : bool * HabitAppState :=
  let initialLength := List.length (habits st) in
  let habits' := filter (fun h => negb (String.eqb (id h) id0)) (habits st) in
  let logs' := filter (fun log => negb (String.eqb (habitId log) id0)) (logs st) in
  if Nat.eqb (List.length habits') initialLength then (false, st)
  else (true, mkHabitAppState habits' logs' (settings st)).

End HabitService.

(** ** DayCell colour classification (src/src/components/features/DayCell.tsx) *)

Module DayCell.

(** The [background] of [dotStyle]; a conic gradient is kept as its list of
    colours rather than the CSS text built from it. *)
Inductive Background :=
| Transparent        (* future day *)
| BgTertiary         (* no status / nothing to show *)
| Single (c : string)
| ConicGradient (cs : list string)
| Success            (* green: all habits completed *)
| Warning            (* yellow *)
| Primary            (* blue: only mandatory habits completed *)
| Error.             (* red: nothing completed *)

Definition dotStyle (status : option DayStatus.t) (isFuture : bool) : Background :=
  if isFuture then Transparent else
  match status with
  | None => BgTertiary
  | Some s =>
    let colors := DayStatus.completedColors s in
    if truthy (DayStatus.isFiltered s) && Nat.ltb 0 (List.length colors) then
      match colors with
      | [c] => Single c
      | _ => ConicGradient colors
      end
    else
    let totalHabits := DayStatus.mandatoryTotal s + DayStatus.optionalTotal s in
    let completedHabits := DayStatus.mandatoryCompleted s + DayStatus.optionalCompleted s in
    let allMandatoryDone := Nat.ltb 0 (DayStatus.mandatoryTotal s) &&
          Nat.eqb (DayStatus.mandatoryCompleted s) (DayStatus.mandatoryTotal s) in
    let allOptionalDone := Nat.ltb 0 (DayStatus.optionalTotal s) &&
          Nat.eqb (DayStatus.optionalCompleted s) (DayStatus.optionalTotal s) in
    let someOptionalDone := Nat.ltb 0 (DayStatus.optionalCompleted s) in
    if Nat.ltb 0 totalHabits && Nat.eqb completedHabits totalHabits then Success
    else if allMandatoryDone && someOptionalDone && negb allOptionalDone then Warning
    else if allMandatoryDone then Primary
    else if Nat.ltb 0 totalHabits && Nat.eqb completedHabits 0 then Error
    else if Nat.ltb 0 completedHabits then Warning
    else BgTertiary
  end.

(** [hasMissingMandatory]: the red indicator ([day-cell--missing-mandatory]). *)
Definition hasMissingMandatory (status : option DayStatus.t) (isFuture : bool) : bool :=
  match status with
  | None => false
  | Some s =>
      Nat.ltb 0 (DayStatus.mandatoryTotal s) &&
      Nat.ltb (DayStatus.mandatoryCompleted s) (DayStatus.mandatoryTotal s) && negb isFuture
  end.

(** [allMandatoryComplete]: the celebration flag (star, [day-cell--all-mandatory]). *)
Definition allMandatoryComplete (status : option DayStatus.t) (isFuture : bool) : bool :=
  match status with
  | None => false
  | Some s =>
      Nat.ltb 0 (DayStatus.mandatoryTotal s) &&
      Nat.eqb (DayStatus.mandatoryCompleted s) (DayStatus.mandatoryTotal s) &&
      negb (truthy (DayStatus.isFiltered s)) && negb isFuture
  end.

End DayCell.

(** ** Further operations of the services and their callers *)

(** [String.prototype.padStart(targetLength, c)] with a one-character pad. *)
Fixpoint repeat_char (n : nat) (c : ascii) : string :=
  match n with 0 => "" | S k => String c (repeat_char k c) end.

Definition padStart (s : string) (targetLength : nat) (c : ascii) : string :=
  String.append (repeat_char (targetLength - String.length s) c) s.

(** The local calendar fields of a JS [Date] read by [formatDate]:
    [getFullYear()], [getMonth()] (0-based) and [getDate()]. *)
Record JsDate := mkJsDate {
  fullYear : nat;
  monthIndex : nat;
  dayOfMonth : nat
}.

Module HabitLogServiceExtra.
Import HabitLogService.

Definition getLogsForHabit (st : HabitAppState) (habitId0 : string) : list HabitLog :=
  filter (fun log => String.eqb (habitId log) habitId0) (getLogs st).

Definition getLogsForMonth (st : HabitAppState) (year month : nat) : list HabitLog :=
  let monthPrefix := String.append (string_of_nat year)
                       (String.append "-" (padStart (string_of_nat month) 2 "0"%char)) in
  filter (fun log => String.prefix monthPrefix (date log)) (getLogs st).

(** [HabitLogService.formatDate]: ["YYYY-MM-DD"] from a [Date]. *)
Definition formatDate (dt : JsDate) : string :=
  let year := string_of_nat (fullYear dt) in
  let month := padStart (string_of_nat (monthIndex dt + 1)) 2 "0"%char in
  let day := padStart (string_of_nat (dayOfMonth dt)) 2 "0"%char in
  String.append year (String.append "-" (String.append month (String.append "-" day))).

End HabitLogServiceExtra.

(** [getDayStatusMap] of the earlier service (src/unnamed/part_007): no
    filter argument, every date with logs is stored, and the object literal
    has no [isFiltered] key. Grouping and counting are the same code as in
    part_008. *)
Module HabitLogServiceV1.
Import HabitLogService.

Definition date_step (habits0 : list Habit) (statusMap : list (string * DayStatus.t))
  (entry : string * list HabitLog) : list (string * DayStatus.t) :=
  let '(date0, dateLogs) := entry in
  let mandatoryHabits := filter (fun h => mandatory h) habits0 in
  let optionalHabits := filter (fun h => negb (mandatory h)) habits0 in
  let '(mc, oc, completedColors) := fold_left (count_step habits0) dateLogs (0, 0, []) in
  map_set date0 (DayStatus.mk date0 mc (List.length mandatoryHabits) oc
                   (List.length optionalHabits) completedColors None) statusMap.

Definition getDayStatusMap (st : HabitAppState) (year : nat) (habits0 : list Habit)
  : list (string * DayStatus.t) :=
  let logs0 := getLogsForYear st year in
  fold_left (date_step habits0) (groupByDate logs0) [].

End HabitLogServiceV1.

Module HabitServiceExtra.

Definition getHabits (st : HabitAppState) : list Habit := habits st.

Definition getHabitById (st : HabitAppState) (id0 : string) : option Habit :=
  find (fun h => String.eqb (id h) id0) (getHabits st).

End HabitServiceExtra.

(** [toggleHabitFilter] of the habit context (src/src/context/NetworkContext.tsx):
    the new selection computed from the previous one. *)
Module HabitContext.

Definition toggleHabitFilter (prev : list string) (habitId0 : string) : list string :=
  if includes prev habitId0
  then filter (fun id1 => negb (String.eqb id1 habitId0)) prev
  else prev ++ [habitId0].

End HabitContext.

(** * Proofs *)

(** ** Association-list maps *)

Section MapLemmas.
Context {V : Type}.

Lemma map_get_set (k k' : string) (v : V) (m : list (string * V)) :
  map_get k (map_set k' v m) = if String.eqb k k' then Some v else map_get k m.
Proof.
  induction m as [| [k0 v0] r IH]; simpl.
  - reflexivity.
  - destruct (String.eqb_spec k' k0) as [<- | Hne]; simpl.
    + destruct (String.eqb k k'); reflexivity.
    + rewrite IH. destruct (String.eqb_spec k k'), (String.eqb_spec k k0);
        subst; try congruence; reflexivity.
Qed.

Lemma map_get_None (k : string) (m : list (string * V)) :
  ~ In k (map fst m) -> map_get k m = None.
Proof.
  induction m as [| [k0 v0] r IH]; simpl; intros Hn; [reflexivity |].
  destruct (String.eqb_spec k k0); [subst; tauto |].
  apply IH; tauto.
Qed.

Lemma map_set_keys (k x : string) (v : V) (m : list (string * V)) :
  In x (map fst (map_set k v m)) <-> x = k \/ In x (map fst m).
Proof.
  induction m as [| [k0 v0] r IH]; simpl; [intuition congruence |].
  destruct (String.eqb_spec k k0) as [-> | Hne]; simpl; [intuition congruence |].
  rewrite IH; intuition congruence.
Qed.

Lemma map_set_NoDup (k : string) (v : V) (m : list (string * V)) :
  NoDup (map fst m) -> NoDup (map fst (map_set k v m)).
Proof.
  induction m as [| [k0 v0] r IH]; simpl; intros Hnd.
  - constructor; [simpl; tauto | constructor].
  - inversion Hnd as [| ? ? Hn Hnd']; subst.
    destruct (String.eqb_spec k k0) as [-> | Hne]; simpl.
    + constructor; assumption.
    + constructor; [| now apply IH].
      rewrite map_set_keys. intros [E | E]; [congruence | tauto].
Qed.

End MapLemmas.

(** Folding [map_set] over a map with distinct keys. *)
Lemma fold_map_set_get {V W : Type} (F : string -> V -> W) (G : list (string * V))
  (m0 : list (string * W)) (d : string) :
  NoDup (map fst G) ->
  map_get d (fold_left (fun sm (e : string * V) => map_set (fst e) (F (fst e) (snd e)) sm) G m0)
  = match map_get d G with Some v => Some (F d v) | None => map_get d m0 end.
Proof.
  revert m0. induction G as [| [k v] G IH]; simpl; intros m0 Hnd; [reflexivity |].
  inversion Hnd as [| ? ? Hn Hnd']; subst.
  rewrite IH by assumption. rewrite map_get_set.
  destruct (String.eqb_spec d k) as [-> | Hne].
  - rewrite map_get_None by assumption. reflexivity.
  - reflexivity.
Qed.


(** ** Lists *)

Lemma filter_filter_and {A} (p q : A -> bool) (l : list A) :
  filter p (filter q l) = filter (fun x => q x && p x) l.
Proof.
  induction l as [| x r IH]; simpl; [reflexivity |].
  destruct (q x); simpl; [destruct (p x); simpl |]; rewrite ?IH; reflexivity.
Qed.

Lemma filter_ext_in {A} (p q : A -> bool) (l : list A) :
  (forall x, In x l -> p x = q x) -> filter p l = filter q l.
Proof.
  induction l as [| x r IH]; simpl; intros H; [reflexivity |].
  rewrite (H x (or_introl eq_refl)), IH by auto. reflexivity.
Qed.

Lemma filter_none {A} (p : A -> bool) (l : list A) :
  (forall x, In x l -> p x = false) -> filter p l = [].
Proof.
  induction l as [| x r IH]; simpl; intros H; [reflexivity |].
  rewrite (H x (or_introl eq_refl)). apply IH; auto.
Qed.

Lemma existsb_filter_nil {A} (p : A -> bool) (l : list A) :
  existsb p l = false -> filter p l = [].
Proof.
  induction l as [| x r IH]; simpl; [reflexivity |].
  destruct (p x); simpl; [discriminate | exact IH].
Qed.

Lemma length_filter_split {A} (p : A -> bool) (l : list A) :
  List.length (filter p l) + List.length (filter (fun x => negb (p x)) l) = List.length l.
Proof.
  induction l as [| x r IH]; simpl; [reflexivity |].
  destruct (p x); simpl; lia.
Qed.

Lemma findIndex_None {A} (p : A -> bool) (l : list A) :
  findIndex p l = None <-> (forall x, In x l -> p x = false).
Proof.
  induction l as [| x r IH]; simpl; [split; [tauto | reflexivity] |].
  destruct (p x) eqn:E; simpl.
  - split; [discriminate | intros H; rewrite (H x (or_introl eq_refl)) in E; discriminate].
  - assert (Hs : forall o : option nat, option_map S o = None <-> o = None)
      by (intros [|]; simpl; split; congruence).
    rewrite Hs, IH. split.
    + intros H y [<- | Hy]; auto.
    + intros H y Hy. apply H. auto.
Qed.

Lemma findIndex_Some {A} (p : A -> bool) (l : list A) (i : nat) :
  findIndex p l = Some i ->
  exists x, nth_error l i = Some x /\ p x = true /\
    (forall j y, j < i -> nth_error l j = Some y -> p y = false).
Proof.
  revert i. induction l as [| x r IH]; simpl; intros i H; [discriminate |].
  destruct (p x) eqn:E.
  - injection H as <-. exists x. repeat split; auto. intros j y Hj; lia.
  - destruct (findIndex p r) as [i' |] eqn:Ei; simpl in H; [| discriminate].
    injection H as <-. destruct (IH i' eq_refl) as (y & Hy & Py & Hb).
    exists y. repeat split; auto.
    intros [| j] z Hj Hz; simpl in Hz; [congruence |]. apply (Hb j); auto; lia.
Qed.

Lemma modify_at_nth_same {A} (i : nat) (f : A -> A) (l : list A) (x : A) :
  nth_error l i = Some x -> nth_error (modify_at i f l) i = Some (f x).
Proof.
  revert i. induction l as [| y r IH]; intros [| i] H; simpl in *; try discriminate.
  - congruence.
  - auto.
Qed.

Lemma modify_at_nth_other {A} (i j : nat) (f : A -> A) (l : list A) :
  i <> j -> nth_error (modify_at i f l) j = nth_error l j.
Proof.
  revert i j. induction l as [| y r IH]; intros [| i] [| j] H; simpl; auto; try lia.
Qed.

Lemma modify_at_length {A} (i : nat) (f : A -> A) (l : list A) :
  List.length (modify_at i f l) = List.length l.
Proof.
  revert i. induction l as [| y r IH]; intros [| i]; simpl; auto.
Qed.

Lemma map_modify_at {A B} (g : A -> B) (i : nat) (f : A -> A) (l : list A) :
  (forall x, g (f x) = g x) -> map g (modify_at i f l) = map g l.
Proof.
  intros Hg. revert i. induction l as [| y r IH]; intros [| i]; simpl; auto.
  - rewrite Hg. reflexivity.
  - rewrite IH. reflexivity.
Qed.

(** ** The aggregator: grouping, per-date counting, lookup in the result *)

Module AggregatorFacts.
Import HabitLogService.

Definition onDate (d : string) (log : HabitLog) : bool := String.eqb (date log) d.

(** The habit a log entry contributes to: only completed entries whose
    [habitId] is found among the active habits ([activeHabits.find]). *)
Definition resolve (act : list Habit) (log : HabitLog) : option Habit :=
  if completed log then find (fun h => String.eqb (id h) (habitId log)) act else None.

Definition resolvesMandatory (act : list Habit) (log : HabitLog) : bool :=
  match resolve act log with Some h => mandatory h | None => false end.

Definition resolvesOptional (act : list Habit) (log : HabitLog) : bool :=
  match resolve act log with Some h => negb (mandatory h) | None => false end.

Definition colorOf (act : list Habit) (log : HabitLog) : list string :=
  match resolve act log with Some h => [color h] | None => [] end.

(** The status [date_step] stores for one date. *)
Definition status_of (habitFilter : option (list string)) (act : list Habit)
  (d : string) (dateLogs : list HabitLog) : DayStatus.t :=
  let '(mc, oc, cols) := fold_left (count_step act) dateLogs (0, 0, []) in
  let isFA := isFilterActive habitFilter in
  DayStatus.mk d mc (List.length (filter (fun h => mandatory h) act)) oc
    (List.length (filter (fun h => negb (mandatory h)) act)) cols
    (if Nat.ltb 0 (List.length cols) || truthy isFA then isFA else Some false).

Lemma group_step_get (m : list (string * list HabitLog)) (x : HabitLog) (d : string) :
  map_get d (group_step m x) =
  if String.eqb d (date x)
  then Some (match map_get (date x) m with Some a => a | None => [] end ++ [x])
  else map_get d m.
Proof.
  unfold group_step, map_has.
  destruct (map_get (date x) m) as [a |] eqn:E.
  - rewrite E, map_get_set. reflexivity.
  - rewrite map_get_set, String.eqb_refl, map_get_set, map_get_set.
    destruct (String.eqb d (date x)); reflexivity.
Qed.

Lemma groupByDate_get (L : list HabitLog) (d : string) :
  map_get d (groupByDate L) =
  if existsb (onDate d) L then Some (filter (onDate d) L) else None.
Proof.
  revert d. induction L as [| x L IH] using rev_ind; intros d; [reflexivity |].
  unfold groupByDate in *. rewrite fold_left_app. simpl fold_left.
  rewrite group_step_get, existsb_app, filter_app, IH, IH. simpl.
  replace (onDate d x) with (String.eqb d (date x))
    by (unfold onDate; apply String.eqb_sym).
  destruct (String.eqb_spec d (date x)) as [-> | Hne]; simpl.
  - rewrite orb_true_r.
    destruct (existsb (onDate (date x)) L) eqn:Ex; [reflexivity |].
    rewrite existsb_filter_nil by assumption. reflexivity.
  - rewrite orb_false_r, app_nil_r. reflexivity.
Qed.

Lemma group_step_NoDup (m : list (string * list HabitLog)) (x : HabitLog) :
  NoDup (map fst m) -> NoDup (map fst (group_step m x)).
Proof.
  intros H. unfold group_step.
  destruct (map_has (date x) m); destruct (map_get _ _);
    repeat apply map_set_NoDup; exact H.
Qed.

Lemma groupByDate_NoDup (L : list HabitLog) : NoDup (map fst (groupByDate L)).
Proof.
  induction L as [| x L IH] using rev_ind; [constructor |].
  unfold groupByDate in *. rewrite fold_left_app. simpl fold_left.
  apply group_step_NoDup, IH.
Qed.

Lemma date_step_eq habitFilter act sm d dateLogs :
  date_step habitFilter act sm (d, dateLogs)
  = map_set d (status_of habitFilter act d dateLogs) sm.
Proof.
  unfold date_step, status_of.
  destruct (fold_left (count_step act) dateLogs (0, 0, [])) as [[mc oc] cols].
  destruct (Nat.ltb 0 (List.length cols) || truthy (isFilterActive habitFilter)) eqn:C;
    [reflexivity |].
  apply orb_false_elim in C as [_ C]. rewrite C. reflexivity.
Qed.

Lemma fold_left_ext_pt {A B} (f g : A -> B -> A) (l : list B) (a : A) :
  (forall x y, f x y = g x y) -> fold_left f l a = fold_left g l a.
Proof.
  intros H. revert a. induction l as [| y r IH]; intros a; simpl; [| rewrite H]; auto.
Qed.

(** Lookup in the aggregator's result. *)
Lemma getDayStatusMap_get st year habits0 habitFilter d :
  map_get d (getDayStatusMap st year habits0 habitFilter) =
  let AL := activeLogs habitFilter (getLogsForYear st year) in
  if existsb (onDate d) AL
  then Some (status_of habitFilter (activeHabits habitFilter habits0) d (filter (onDate d) AL))
  else None.
Proof.
  unfold getDayStatusMap. cbv zeta.
  set (act := activeHabits habitFilter habits0).
  set (AL := activeLogs habitFilter (getLogsForYear st year)).
  rewrite (fold_left_ext_pt _
    (fun sm (e : string * list HabitLog) =>
       map_set (fst e) (status_of habitFilter act (fst e) (snd e)) sm))
    by (intros sm [k v]; apply date_step_eq).
  rewrite (fold_map_set_get (status_of habitFilter act)) by apply groupByDate_NoDup.
  rewrite groupByDate_get. destruct (existsb (onDate d) AL); reflexivity.
Qed.

Lemma length_filter_cons {A} (p : A -> bool) (x : A) (r : list A) :
  List.length (filter p (x :: r)) = (if p x then 1 else 0) + List.length (filter p r).
Proof. simpl. destruct (p x); reflexivity. Qed.

Lemma triple_eq {A B C} (a a' : A) (b b' : B) (c c' : C) :
  a = a' -> b = b' -> c = c' -> (a, b, c) = (a', b', c').
Proof. intros -> -> ->. reflexivity. Qed.

Lemma count_fold act ls mc oc cols :
  fold_left (count_step act) ls (mc, oc, cols) =
  (mc + List.length (filter (resolvesMandatory act) ls),
   oc + List.length (filter (resolvesOptional act) ls),
   cols ++ flat_map (colorOf act) ls).
Proof.
  revert mc oc cols. induction ls as [| x r IH]; intros mc oc cols.
  - simpl. rewrite Nat.add_0_r, Nat.add_0_r, app_nil_r. reflexivity.
  - cbn [fold_left].
    assert (E : count_step act (mc, oc, cols) x =
      (mc + (if resolvesMandatory act x then 1 else 0),
       oc + (if resolvesOptional act x then 1 else 0),
       cols ++ colorOf act x)).
    { unfold count_step, resolvesMandatory, resolvesOptional, colorOf, resolve.
      destruct (completed x); [destruct (find _ act) as [h |]; [destruct (mandatory h) |] |];
        simpl; rewrite ?app_nil_r; repeat f_equal; lia. }
    rewrite E, IH, !length_filter_cons.
    change (flat_map (colorOf act) (x :: r)) with (colorOf act x ++ flat_map (colorOf act) r).
    rewrite app_assoc. apply triple_eq; [| | reflexivity];
      destruct (resolvesMandatory act x), (resolvesOptional act x); lia.
Qed.

Lemma status_of_eq habitFilter act d dateLogs :
  status_of habitFilter act d dateLogs =
  DayStatus.mk d (List.length (filter (resolvesMandatory act) dateLogs))
    (List.length (filter (fun h => mandatory h) act))
    (List.length (filter (resolvesOptional act) dateLogs))
    (List.length (filter (fun h => negb (mandatory h)) act))
    (flat_map (colorOf act) dateLogs)
    (if Nat.ltb 0 (List.length (flat_map (colorOf act) dateLogs))
        || truthy (isFilterActive habitFilter)
     then isFilterActive habitFilter else Some false).
Proof. unfold status_of. rewrite count_fold. reflexivity. Qed.

Lemma colors_length act dateLogs :
  List.length (flat_map (colorOf act) dateLogs) =
  List.length (filter (resolvesMandatory act) dateLogs)
  + List.length (filter (resolvesOptional act) dateLogs).
Proof.
  induction dateLogs as [| x r IH]; [reflexivity |].
  cbn [flat_map]. rewrite length_app, !length_filter_cons, IH.
  unfold colorOf, resolvesMandatory, resolvesOptional.
  destruct (resolve act x) as [h |]; [destruct (mandatory h) |]; simpl; lia.
Qed.

Lemma resolve_Some act log h :
  resolve act log = Some h -> In h act /\ id h = habitId log /\ completed log = true.
Proof.
  unfold resolve. destruct (completed log); [| discriminate].
  intros Hf. destruct (find_some _ _ Hf) as [Hin Heq].
  apply String.eqb_eq in Heq. auto.
Qed.

Lemma resolve_None act log :
  (forall h, In h act -> id h <> habitId log) -> resolve act log = None.
Proof.
  intros H. unfold resolve. destruct (completed log); [| reflexivity].
  destruct (find _ act) as [h |] eqn:Hf; [| reflexivity].
  destruct (find_some _ _ Hf) as [Hin Heq].
  apply String.eqb_eq in Heq. exfalso. exact (H h Hin Heq).
Qed.

Lemma includes_In (f : list string) (x : string) : includes f x = true <-> In x f.
Proof.
  unfold includes. rewrite existsb_exists. split.
  - intros (y & Hy & E). apply String.eqb_eq in E. subst. exact Hy.
  - intros Hx. exists x. split; [exact Hx | apply String.eqb_refl].
Qed.

(** The logs that survive the year prefix and the habit-id filter. *)
Lemma in_activeLogs st year habitFilter log :
  In log (activeLogs habitFilter (getLogsForYear st year)) <->
  In log (logs st) /\
  String.prefix (String.append (string_of_nat year) "-") (date log) = true /\
  (forall f, habitFilter = Some f -> f <> [] -> In (habitId log) f).
Proof.
  unfold activeLogs, getLogsForYear, getLogs.
  destruct habitFilter as [f |].
  - destruct (Nat.ltb 0 (List.length f)) eqn:Hf.
    + rewrite filter_In, filter_In, includes_In. split.
      * intros [[H1 H2] H3]. repeat split; auto. intros f' E _. injection E as <-. exact H3.
      * intros (H1 & H2 & H3). repeat split; auto.
        apply H3; [reflexivity |]. intros ->. discriminate.
    + rewrite filter_In. split.
      * intros [H1 H2]. repeat split; auto. intros f' E Hne. injection E as <-.
        destruct f; [contradiction | discriminate].
      * tauto.
  - rewrite filter_In. split; [| tauto].
    intros [H1 H2]. repeat split; auto. discriminate.
Qed.

Lemma activeHabits_incl habitFilter habits0 h :
  In h (activeHabits habitFilter habits0) -> In h habits0.
Proof.
  unfold activeHabits. destruct habitFilter as [f |]; [destruct (Nat.ltb 0 _) |]; auto.
  rewrite filter_In. tauto.
Qed.

(** The year, habit-id filter and date selections as one predicate on the
    stored log. *)
Definition keep (year : nat) (habitFilter : option (list string)) (d : string)
  (log : HabitLog) : bool :=
  String.prefix (String.append (string_of_nat year) "-") (date log) &&
  match habitFilter with
  | Some f => if Nat.ltb 0 (List.length f) then includes f (habitId log) else true
  | None => true
  end && onDate d log.

Lemma dateLogs_eq st year habitFilter d :
  filter (onDate d) (activeLogs habitFilter (getLogsForYear st year))
  = filter (keep year habitFilter d) (logs st).
Proof.
  unfold activeLogs, getLogsForYear, getLogs, keep.
  destruct habitFilter as [f |]; [destruct (Nat.ltb 0 (List.length f)) |];
    rewrite ?filter_filter_and; apply filter_ext_in; intros x _;
    rewrite ?andb_true_r, ?andb_assoc; reflexivity.
Qed.

Lemma filter_skip {A} (p q : A -> bool) (pre post : list A) (x : A) :
  p x = false -> filter p (filter q (pre ++ x :: post)) = filter p (filter q (pre ++ post)).
Proof.
  intros H. rewrite !filter_app. simpl.
  destruct (q x); simpl; rewrite ?H; reflexivity.
Qed.

Lemma flat_map_skip {A B} (g : A -> list B) (q : A -> bool) (pre post : list A) (x : A) :
  g x = [] -> flat_map g (filter q (pre ++ x :: post)) = flat_map g (filter q (pre ++ post)).
Proof.
  intros H. rewrite !filter_app, !flat_map_app. simpl.
  destruct (q x); simpl; rewrite ?H; reflexivity.
Qed.

Lemma totals_sum habitFilter act d dateLogs :
  DayStatus.mandatoryTotal (status_of habitFilter act d dateLogs)
  + DayStatus.optionalTotal (status_of habitFilter act d dateLogs) = List.length act.
Proof. rewrite status_of_eq. simpl. apply length_filter_split. Qed.

Lemma NoDup_map_filter {A B} (g : A -> B) (p : A -> bool) (l : list A) :
  NoDup (map g l) -> NoDup (map g (filter p l)).
Proof.
  induction l as [| x r IH]; simpl; intros Hnd; [constructor |].
  inversion Hnd as [| ? ? Hn Hnd']; subst.
  destruct (p x); simpl; [constructor |]; auto.
  rewrite in_map_iff. intros (y & Hy & Hin). apply filter_In in Hin as [Hin _].
  apply Hn. rewrite <- Hy. apply in_map. exact Hin.
Qed.

(** Entries of one date that are unique per (habitId, date) have distinct
    habit ids. *)
Lemma same_date_NoDup_ids (d : string) (L : list HabitLog) :
  (forall x, In x L -> date x = d) ->
  NoDup (map (fun l => (habitId l, date l)) L) -> NoDup (map habitId L).
Proof.
  induction L as [| x r IH]; simpl; intros Hd Hnd; [constructor |].
  inversion Hnd as [| ? ? Hn Hnd']; subst.
  constructor; [| apply IH; auto].
  rewrite in_map_iff. intros (y & Hy & Hin). apply Hn.
  apply in_map_iff. exists y. split; [| exact Hin].
  rewrite Hy, (Hd y (or_intror Hin)), (Hd x (or_introl eq_refl)). reflexivity.
Qed.

Definition resolved_with (m : Habit -> bool) (act : list Habit) (log : HabitLog) : list Habit :=
  match resolve act log with Some h => if m h then [h] else [] | None => [] end.

Lemma resolved_with_ids m act L h :
  In h (flat_map (resolved_with m act) L) -> In (id h) (map habitId L) /\ In h act /\ m h = true.
Proof.
  rewrite in_flat_map. intros (l & Hl & Hh). unfold resolved_with in Hh.
  destruct (resolve act l) as [h' |] eqn:Hr; [| contradiction].
  destruct (m h') eqn:Hm; [| contradiction]. destruct Hh as [<- | []].
  destruct (resolve_Some _ _ _ Hr) as (Hin & Hid & _).
  rewrite Hid. split; [apply in_map; exact Hl | auto].
Qed.

Lemma completed_bound (m : Habit -> bool) (act : list Habit) (L : list HabitLog) :
  NoDup (map habitId L) ->
  List.length (filter (fun l => match resolve act l with Some h => m h | None => false end) L)
  <= List.length (filter m act).
Proof.
  intros Hnd.
  assert (Hlen : List.length (flat_map (resolved_with m act) L) =
    List.length (filter (fun l => match resolve act l with Some h => m h | None => false end) L)).
  { clear Hnd. induction L as [| x r IH]; [reflexivity |].
    cbn [flat_map]. rewrite length_app, length_filter_cons, IH.
    unfold resolved_with. destruct (resolve act x) as [h |]; [destruct (m h) |]; reflexivity. }
  rewrite <- Hlen. clear Hlen. apply NoDup_incl_length.
  - induction L as [| x r IH]; simpl; [constructor |].
    inversion Hnd as [| ? ? Hn Hnd']; subst.
    unfold resolved_with at 1. destruct (resolve act x) as [h |] eqn:Hr; [| apply IH; auto].
    destruct (m h); simpl; [| apply IH; auto].
    constructor; [| apply IH; auto].
    intros Hin. apply resolved_with_ids in Hin as (Hid & _).
    destruct (resolve_Some _ _ _ Hr) as (_ & E & _). rewrite E in Hid. contradiction.
  - intros h Hh. apply resolved_with_ids in Hh as (_ & Hin & Hm).
    apply filter_In. auto.
Qed.

(** Each colour of a status of the result goes back to an active habit and
    a completed log entry of that habit on that date; the colours number the
    completions, and the totals count the active habits. *)
Lemma status_traced st year habits0 habitFilter d s :
  map_get d (getDayStatusMap st year habits0 habitFilter) = Some s ->
  (forall c, In c (DayStatus.completedColors s) ->
     exists h l, In h (activeHabits habitFilter habits0) /\ In l (logs st) /\
       habitId l = id h /\ date l = d /\ completed l = true /\ color h = c)
  /\ List.length (DayStatus.completedColors s)
     = DayStatus.mandatoryCompleted s + DayStatus.optionalCompleted s
  /\ DayStatus.mandatoryTotal s + DayStatus.optionalTotal s
     = List.length (activeHabits habitFilter habits0).
Proof.
  intros Hs. rewrite getDayStatusMap_get in Hs. cbv zeta in Hs.
  destruct (existsb _ _); [injection Hs as <- | discriminate].
  rewrite dateLogs_eq. split; [| split; [rewrite status_of_eq; apply colors_length | apply totals_sum]].
  rewrite status_of_eq. simpl. intros c Hc.
  apply in_flat_map in Hc as (l & Hl & Hc).
  apply filter_In in Hl as [Hl Hk].
  unfold keep, onDate in Hk. apply andb_prop in Hk as [_ Hd].
  apply String.eqb_eq in Hd.
  unfold colorOf in Hc. destruct (resolve _ l) as [h |] eqn:Hr; [| contradiction].
  destruct Hc as [<- | []].
  destruct (resolve_Some _ _ _ Hr) as (Hh & Hid & Hc).
  exists h, l. repeat split; try assumption; congruence.
Qed.

End AggregatorFacts.

(** ** The completion log: lookups after an update *)

Module LogFacts.
Import HabitLogService.

Lemma find_None_iff {A} (p : A -> bool) (l : list A) :
  find p l = None <-> (forall x, In x l -> p x = false).
Proof.
  induction l as [| x r IH]; simpl; [split; [tauto | reflexivity] |].
  destruct (p x) eqn:E.
  - split; [discriminate | intros H; rewrite (H x (or_introl eq_refl)) in E; discriminate].
  - rewrite IH. split.
    + intros H y [<- | Hy]; auto.
    + intros H y Hy. apply H. auto.
Qed.

Lemma find_app {A} (p : A -> bool) (l l' : list A) :
  find p (l ++ l') = match find p l with Some x => Some x | None => find p l' end.
Proof.
  induction l as [| x r IH]; simpl; [reflexivity |].
  destruct (p x); [reflexivity | exact IH].
Qed.

(** Updating, in place, the first element satisfying [p] with a function
    that keeps [p]. *)
Lemma find_modify_first {A} (p : A -> bool) (f : A -> A) (l : list A) (i : nat) :
  findIndex p l = Some i -> (forall y, p (f y) = p y) ->
  exists x, nth_error l i = Some x /\ find p l = Some x /\
    find p (modify_at i f l) = Some (f x) /\ findIndex p (modify_at i f l) = Some i.
Proof.
  intros Hi Hf. revert i Hi. induction l as [| y r IH]; simpl; intros i Hi; [discriminate |].
  destruct (p y) eqn:E.
  - injection Hi as <-. exists y. simpl. rewrite Hf, E. auto.
  - destruct (findIndex p r) as [i' |] eqn:Ei; simpl in Hi; [| discriminate].
    injection Hi as <-. destruct (IH i' eq_refl) as (x & H1 & H2 & H3 & H4).
    exists x. simpl. rewrite E, H3, H4. auto.
Qed.

Lemma matches_flip h d x : matches h d (flip_completed x) = matches h d x.
Proof. reflexivity. Qed.

Lemma matches_set h d b x : matches h d (set_completed b x) = matches h d x.
Proof. reflexivity. Qed.

Lemma matches_new h d b : matches h d (mkHabitLog h d b) = true.
Proof. unfold matches. simpl. rewrite !String.eqb_refl. reflexivity. Qed.

(** One toggle returns the state [isCompleted] reports afterwards, and that
    state is the negation of the one before. *)
Lemma toggle_flips st h d :
  fst (toggleCompletion st h d) = isCompleted (snd (toggleCompletion st h d)) h d /\
  isCompleted (snd (toggleCompletion st h d)) h d = negb (isCompleted st h d).
Proof.
  unfold toggleCompletion, isCompleted, getLogs, with_logs.
  destruct (findIndex (matches h d) (logs st)) as [i |] eqn:E; simpl.
  - destruct (find_modify_first _ flip_completed _ _ E (matches_flip h d))
      as (x & Hx & Hf & Hf' & _).
    rewrite (modify_at_nth_same _ _ _ _ Hx), Hf', Hf. simpl. auto.
  - assert (Hn : find (matches h d) (logs st) = None)
      by (apply find_None_iff, findIndex_None, E).
    rewrite find_app, Hn. simpl. rewrite matches_new. auto.
Qed.

Definition log_key (l : HabitLog) : string * string := (habitId l, date l).

Lemma NoDup_snoc {A} (l : list A) (a : A) :
  NoDup l -> ~ In a l -> NoDup (l ++ [a]).
Proof.
  induction l as [| x r IH]; simpl; intros Hnd Hn.
  - constructor; [simpl; tauto | constructor].
  - inversion Hnd; subst. constructor.
    + rewrite in_app_iff. simpl. intuition.
    + apply IH; auto.
Qed.

Lemma key_absent h d l :
  findIndex (matches h d) l = None -> ~ In (h, d) (map log_key l).
Proof.
  intros E Hin. apply in_map_iff in Hin as (x & Hk & Hx).
  apply findIndex_None with (x := x) in E; [| exact Hx].
  unfold log_key in Hk. injection Hk as <- <-.
  unfold matches in E. rewrite !String.eqb_refl in E. discriminate.
Qed.

(** Upsert by (habitId, date): the shape shared by [toggleCompletion] and
    [setCompletion]. *)
Lemma upsert_keys h d (f : HabitLog -> HabitLog) (new : HabitLog) (l : list HabitLog) :
  (forall x, log_key (f x) = log_key x) -> log_key new = (h, d) ->
  NoDup (map log_key l) ->
  NoDup (map log_key (match findIndex (matches h d) l with
                      | None => l ++ [new]
                      | Some i => modify_at i f l
                      end)).
Proof.
  intros Hf Hn Hnd. destruct (findIndex (matches h d) l) eqn:E.
  - rewrite map_modify_at by exact Hf. exact Hnd.
  - rewrite map_app. simpl. rewrite Hn. apply NoDup_snoc; [exact Hnd |].
    apply key_absent. exact E.
Qed.

End LogFacts.

(** * Properties of the day-status aggregation *)

Import HabitLogService AggregatorFacts.

(** A state whose only log entry, for 2024-01-01, names a habit that no
    longer exists. *)
Definition orphan_state : HabitAppState :=
  mkHabitAppState [] [mkHabitLog "x" "2024-01-01" true] (mkHabitSettings false 2024).

(** ** C1: which dates get an entry *)

(** C1, as stated, fails: with no filter and an empty habit list, a log entry
    of 2024-01-01 for the unknown habit "x" still puts 2024-01-01 in the
    result, although no log entry of that date names an active habit. *)
Lemma C1_counterexample :
  ~ (forall d,
       map_has d (getDayStatusMap orphan_state 2024 [] None) = true <->
       exists l h, In l (getLogsForYear orphan_state 2024) /\ date l = d /\
         In h (activeHabits None []) /\ id h = habitId l).
Proof.
  intros H.
  destruct (proj1 (H "2024-01-01") ltac:(vm_compute; reflexivity))
    as (l & h & _ & _ & Hh & _).
  exact Hh.
Qed.

(** C1 (amended): the result has an entry for date [d] exactly when some
    log entry of the target year (date starting with ["<year>-"]) is dated
    [d] and, when a non-empty [habitFilter] is given, its [habitId] is in
    the filter; whether the habit exists in [habits] plays no part. In
    particular a year with no log entries gives the empty map. *)
Theorem C1_entries_keyed_on_year_logs (st : HabitAppState) (year : nat)
  (habits0 : list Habit) (habitFilter : option (list string)) (d : string) :
  (map_has d (getDayStatusMap st year habits0 habitFilter) = true <->
   exists l, In l (logs st) /\
     String.prefix (String.append (string_of_nat year) "-") (date l) = true /\
     date l = d /\
     (forall f, habitFilter = Some f -> f <> [] -> In (habitId l) f))
  /\ (getLogsForYear st year = [] -> getDayStatusMap st year habits0 habitFilter = []).
Proof.
  split.
  - unfold map_has. rewrite getDayStatusMap_get. cbv zeta.
    destruct (existsb (onDate d) _) eqn:Ex.
    + apply existsb_exists in Ex as (l & Hl & Hd).
      apply String.eqb_eq in Hd.
      apply in_activeLogs in Hl as (H1 & H2 & H3).
      split; [intros _ | reflexivity]. exists l. auto.
    + split; [discriminate |]. intros (l & H1 & H2 & H3 & H4).
      assert (Hin : In l (activeLogs habitFilter (getLogsForYear st year)))
        by (apply in_activeLogs; auto).
      assert (existsb (onDate d) (activeLogs habitFilter (getLogsForYear st year)) = true)
        by (apply existsb_exists; exists l; split; [exact Hin | apply String.eqb_eq; exact H3]).
      congruence.
  - intros H. unfold getDayStatusMap. rewrite H. unfold activeLogs.
    destruct habitFilter as [f |]; [destruct (Nat.ltb 0 (List.length f)) |]; reflexivity.
Qed.

(** ** C2: colours come from active habits; dangling entries count for nothing *)

(** C2: in every status of the result, each colour of [completedColors] is
    the colour of an active habit that has a completed log entry on that
    date; removing a log entry whose [habitId] names no active habit leaves
    every date's counters and colours unchanged; and with a non-empty filter,
    [mandatoryTotal + optionalTotal] is the number of habits whose id is in
    the filter. *)
Theorem C2_colors_counters_totals (st : HabitAppState) (year : nat)
  (habits0 : list Habit) (habitFilter : option (list string)) (d : string)
  (s : DayStatus.t) :
  map_get d (getDayStatusMap st year habits0 habitFilter) = Some s ->
  (forall c, In c (DayStatus.completedColors s) ->
     exists h l, In h (activeHabits habitFilter habits0) /\ In l (logs st) /\
       habitId l = id h /\ date l = d /\ completed l = true /\ color h = c)
  /\ (forall pre l post, logs st = pre ++ l :: post ->
        (forall h, In h (activeHabits habitFilter habits0) -> id h <> habitId l) ->
        forall s', map_get d (getDayStatusMap (with_logs st (pre ++ post)) year habits0 habitFilter)
                   = Some s' ->
        DayStatus.mandatoryCompleted s' = DayStatus.mandatoryCompleted s /\
        DayStatus.optionalCompleted s' = DayStatus.optionalCompleted s /\
        DayStatus.completedColors s' = DayStatus.completedColors s)
  /\ (forall f, habitFilter = Some f -> f <> [] ->
        DayStatus.mandatoryTotal s + DayStatus.optionalTotal s
        = List.length (filter (fun h => includes f (id h)) habits0)).
Proof.
  intros Hs. rewrite getDayStatusMap_get in Hs. cbv zeta in Hs.
  destruct (existsb _ _); [injection Hs as <- | discriminate].
  rewrite dateLogs_eq. refine (conj _ (conj _ _)).
  - rewrite status_of_eq. simpl. intros c Hc.
    apply in_flat_map in Hc as (l & Hl & Hc).
    apply filter_In in Hl as [Hl Hk].
    unfold keep, onDate in Hk. apply andb_prop in Hk as [_ Hd].
    apply String.eqb_eq in Hd.
    unfold colorOf in Hc. destruct (resolve _ l) as [h |] eqn:Hr; [| contradiction].
    destruct Hc as [<- | []].
    destruct (resolve_Some _ _ _ Hr) as (Hh & Hid & Hc).
    exists h, l. repeat split; try assumption; congruence.
  - intros pr lg po Hlogs Hnone s' Hs'.
    rewrite getDayStatusMap_get in Hs'. cbv zeta in Hs'.
    destruct (existsb _ _); [injection Hs' as <- | discriminate].
    rewrite dateLogs_eq, !status_of_eq. simpl. rewrite Hlogs.
    pose proof (resolve_None _ _ Hnone) as Hr.
    repeat split.
    + rewrite (filter_skip _ _ pr po lg); [reflexivity |].
      unfold resolvesMandatory. rewrite Hr. reflexivity.
    + rewrite (filter_skip _ _ pr po lg); [reflexivity |].
      unfold resolvesOptional. rewrite Hr. reflexivity.
    + rewrite (flat_map_skip _ _ pr po lg); [reflexivity |].
      unfold colorOf. rewrite Hr. reflexivity.
  - intros f -> Hne. rewrite totals_sum. unfold activeHabits.
    destruct f as [| x f]; [contradiction | reflexivity].
Qed.

(** ** C3: the [isFiltered] flag *)

(** Scenario 1 of the spec: habit "a" (mandatory, "#f00") and habit "b"
    (optional, "#0f0"); on 2024-01-01 "a" is completed and "b" is not. *)
Definition habit_a : Habit := mkHabit "a" "A" "#f00" true "2024-01-01T00:00:00.000Z" None.
Definition habit_b : Habit := mkHabit "b" "B" "#0f0" false "2024-01-01T00:00:00.000Z" None.
Definition scenario_state : HabitAppState :=
  mkHabitAppState [habit_a; habit_b]
    [mkHabitLog "a" "2024-01-01" true; mkHabitLog "b" "2024-01-01" false]
    (mkHabitSettings false 2024).

(** C3: called without a filter, the status of 2024-01-01 (which has a
    completed colour) carries [isFiltered = undefined], not [false]: the
    first branch stores [habitFilter && habitFilter.length > 0], which is
    [undefined] when [habitFilter] is [undefined]. *)
Lemma C3_isFiltered_undefined_without_filter :
  map_get "2024-01-01" (getDayStatusMap scenario_state 2024 [habit_a; habit_b] None)
  = Some (DayStatus.mk "2024-01-01" 1 1 0 1 ["#f00"] None).
Proof. vm_compute. reflexivity. Qed.

(** ** C9: no vacuous "all mandatory done" *)

(** C9: a status with [mandatoryTotal = 0] is never painted with the
    "only mandatory habits completed" colour nor given the celebration flag;
    and when no active habit is mandatory, every status of the result has
    [mandatoryTotal = 0]. *)
Theorem C9_no_vacuous_mandatory_completion :
  (forall (s : DayStatus.t) (isFuture : bool),
     DayStatus.mandatoryTotal s = 0 ->
     DayCell.dotStyle (Some s) isFuture <> DayCell.Primary /\
     DayCell.allMandatoryComplete (Some s) isFuture = false)
  /\ (forall st year habits0 habitFilter d s,
        (forall h, In h (activeHabits habitFilter habits0) -> mandatory h = false) ->
        map_get d (getDayStatusMap st year habits0 habitFilter) = Some s ->
        DayStatus.mandatoryTotal s = 0).
Proof.
  split.
  - intros s isFuture H0. unfold DayCell.dotStyle, DayCell.allMandatoryComplete.
    rewrite H0. simpl. split; [| reflexivity].
    destruct isFuture; [discriminate |].
    repeat match goal with
           | |- context [if ?b then _ else _] => destruct b
           | |- context [match ?c with [] => _ | _ :: _ => _ end] => destruct c as [| ? [|]]
           end; discriminate.
  - intros st year habits0 habitFilter d s Hm Hs.
    rewrite getDayStatusMap_get in Hs. cbv zeta in Hs.
    destruct (existsb _ _); [injection Hs as <- | discriminate].
    rewrite status_of_eq. simpl.
    rewrite filter_none; [reflexivity |]. exact Hm.
Qed.

(** ** C10: counters against colours and totals *)

(** C10: in every status of the result, [completedColors] has
    [mandatoryCompleted + optionalCompleted] elements; and when the log holds
    at most one entry per (habitId, date), [mandatoryCompleted <=
    mandatoryTotal] and [optionalCompleted <= optionalTotal]. *)
Theorem C10_counter_bounds (st : HabitAppState) (year : nat) (habits0 : list Habit)
  (habitFilter : option (list string)) (d : string) (s : DayStatus.t) :
  map_get d (getDayStatusMap st year habits0 habitFilter) = Some s ->
  List.length (DayStatus.completedColors s)
    = DayStatus.mandatoryCompleted s + DayStatus.optionalCompleted s
  /\ (NoDup (map (fun l => (habitId l, date l)) (logs st)) ->
      DayStatus.mandatoryCompleted s <= DayStatus.mandatoryTotal s /\
      DayStatus.optionalCompleted s <= DayStatus.optionalTotal s).
Proof.
  intros Hs. rewrite getDayStatusMap_get in Hs. cbv zeta in Hs.
  destruct (existsb _ _); [injection Hs as <- | discriminate].
  rewrite dateLogs_eq, status_of_eq. simpl. split; [apply colors_length |].
  intros Hnd.
  assert (Hids : NoDup (map habitId (filter (keep year habitFilter d) (logs st)))).
  { apply (same_date_NoDup_ids d); [| apply NoDup_map_filter; exact Hnd].
    intros x Hx. apply filter_In in Hx as [_ Hk].
    unfold keep, onDate in Hk. apply andb_prop in Hk as [_ Hk].
    apply String.eqb_eq. exact Hk. }
  split; [apply (completed_bound (fun h => mandatory h)) | apply (completed_bound (fun h => negb (mandatory h)))];
    exact Hids.
Qed.

(** * Properties of the completion log *)

Import LogFacts.

(** ** C4: toggling twice *)

(** C4: for two successive toggles of (h, d), each call returns the value
    [isCompleted h d] gives right after it, the second call restores the
    original [isCompleted h d]; the first call appends an entry with
    [completed = true] and returns [true] when no entry existed, and flips
    the first matching entry in place otherwise. *)
Theorem C4_toggle_twice (st : HabitAppState) (h d : string)
  (b1 b2 : bool) (st1 st2 : HabitAppState) :
  toggleCompletion st h d = (b1, st1) ->
  toggleCompletion st1 h d = (b2, st2) ->
  isCompleted st2 h d = isCompleted st h d /\
  b1 = isCompleted st1 h d /\ b2 = isCompleted st2 h d /\
  (findIndex (matches h d) (logs st) = None ->
     b1 = true /\ logs st1 = logs st ++ [mkHabitLog h d true]) /\
  (forall i, findIndex (matches h d) (logs st) = Some i ->
     logs st1 = modify_at i flip_completed (logs st)).
Proof.
  intros T1 T2.
  destruct (toggle_flips st h d) as [R1 F1].
  destruct (toggle_flips st1 h d) as [R2 F2].
  rewrite T1 in R1, F1. rewrite T2 in R2, F2. simpl in *.
  split; [rewrite F2, F1; apply negb_involutive |].
  split; [exact R1 |]. split; [exact R2 |].
  unfold toggleCompletion in T1. split.
  - intros E. rewrite E in T1. injection T1 as <- <-. auto.
  - intros i E. rewrite E in T1. injection T1 as _ <-. reflexivity.
Qed.

(** Scenario 4 of the spec: toggling a fresh (habit, date) pair gives
    [true], then [false]. *)
Lemma C4_toggle_twice_witness :
  toggleCompletion scenario_state "a" "2024-06-01"
    = (true, snd (toggleCompletion scenario_state "a" "2024-06-01")) /\
  toggleCompletion (snd (toggleCompletion scenario_state "a" "2024-06-01")) "a" "2024-06-01"
    = (false, snd (toggleCompletion (snd (toggleCompletion scenario_state "a" "2024-06-01"))
                     "a" "2024-06-01")) /\
  isCompleted (snd (toggleCompletion (snd (toggleCompletion scenario_state "a" "2024-06-01"))
                     "a" "2024-06-01")) "a" "2024-06-01"
    = isCompleted scenario_state "a" "2024-06-01".
Proof.
  split; [vm_compute; reflexivity |]. split; [vm_compute; reflexivity |].
  exact (proj1 (C4_toggle_twice scenario_state "a" "2024-06-01" true false _ _
                  ltac:(vm_compute; reflexivity) ltac:(vm_compute; reflexivity))).
Defined.

(** ** C7: one entry per (habitId, date) *)

(** C7: if the log holds at most one entry per (habitId, date), so does the
    log after [toggleCompletion] and after [setCompletion]; each adds an
    entry only when none exists for the pair and otherwise keeps the length. *)
Theorem C7_upsert_keeps_keys_unique (st : HabitAppState) (h d : string) (b : bool) :
  NoDup (map log_key (logs st)) ->
  NoDup (map log_key (logs (snd (toggleCompletion st h d)))) /\
  NoDup (map log_key (logs (setCompletion st h d b))) /\
  List.length (logs (snd (toggleCompletion st h d)))
    = List.length (logs st) + (if findIndex (matches h d) (logs st) then 0 else 1) /\
  List.length (logs (setCompletion st h d b))
    = List.length (logs st) + (if findIndex (matches h d) (logs st) then 0 else 1).
Proof.
  intros Hnd.
  pose proof (upsert_keys h d flip_completed (mkHabitLog h d true) (logs st)
                (fun _ => eq_refl) eq_refl Hnd) as U1.
  pose proof (upsert_keys h d (set_completed b) (mkHabitLog h d b) (logs st)
                (fun _ => eq_refl) eq_refl Hnd) as U2.
  unfold toggleCompletion, setCompletion, with_logs in *.
  destruct (findIndex (matches h d) (logs st)); simpl;
    rewrite ?modify_at_length, ?length_app, ?Nat.add_0_r; auto.
Qed.

Lemma C7_upsert_keeps_keys_unique_witness :
  NoDup (map log_key (logs (snd (toggleCompletion scenario_state "b" "2024-01-01")))).
Proof.
  apply (C7_upsert_keeps_keys_unique scenario_state "b" "2024-01-01" true).
  vm_compute. repeat constructor; simpl; intuition discriminate.
Defined.

(** * Properties of the habit registry *)

Import HabitService.

Lemma length_filter_eq_iff {A} (p : A -> bool) (l : list A) :
  List.length (filter p l) = List.length l <-> (forall x, In x l -> p x = true).
Proof.
  induction l as [| x r IH]; simpl; [split; [tauto | reflexivity] |].
  pose proof (filter_length_le p r) as Hle.
  destruct (p x) eqn:E; simpl.
  - split.
    + intros H y [<- | Hy]; [exact E | apply IH; [lia | exact Hy]].
    + intros H. f_equal. apply IH. auto.
  - split; [lia |]. intros H. rewrite (H x (or_introl eq_refl)) in E. discriminate.
Qed.

Lemma filter_dropped_witness {A} (p : A -> bool) (l : list A) :
  List.length (filter p l) <> List.length l -> exists x, In x l /\ p x = false.
Proof.
  intros H. destruct (existsb (fun x => negb (p x)) l) eqn:E.
  - apply existsb_exists in E as (x & Hx & Hp). exists x. split; [exact Hx |].
    apply negb_true_iff. exact Hp.
  - exfalso. apply H, length_filter_eq_iff. intros x Hx.
    destruct (p x) eqn:Ep; [reflexivity |].
    assert (existsb (fun x => negb (p x)) l = true)
      by (apply existsb_exists; exists x; rewrite Ep; auto).
    congruence.
Qed.

(** ** C5: deleting a habit cascades to its log entries *)

(** C5: [deleteHabit id] returns [true] exactly when a habit with that id
    existed; then the saved state has no habit and no log entry with that
    id, and every later aggregation over it, for any year and filter, has
    every colour (hence every completion count) traced to a habit with
    another id and its own log entry, and totals counting only habits with
    another id. *)
Theorem C5_delete_cascade (st : HabitAppState) (id0 : string) :
  (fst (deleteHabit st id0) = true <-> exists h, In h (habits st) /\ id h = id0)
  /\ (fst (deleteHabit st id0) = true ->
      let st' := snd (deleteHabit st id0) in
      (forall h, In h (habits st') -> id h <> id0) /\
      (forall l, In l (logs st') -> habitId l <> id0) /\
      (forall year habitFilter d s,
         map_get d (getDayStatusMap st' year (habits st') habitFilter) = Some s ->
         (forall c, In c (DayStatus.completedColors s) ->
            exists h l, In h (habits st') /\ id h <> id0 /\ In l (logs st') /\
              habitId l = id h /\ date l = d /\ completed l = true /\ color h = c) /\
         List.length (DayStatus.completedColors s)
           = DayStatus.mandatoryCompleted s + DayStatus.optionalCompleted s /\
         DayStatus.mandatoryTotal s + DayStatus.optionalTotal s
           = List.length (activeHabits habitFilter (habits st')) /\
         (forall h, In h (activeHabits habitFilter (habits st')) -> id h <> id0))).
Proof.
  assert (Hfst : fst (deleteHabit st id0) = true <-> exists h, In h (habits st) /\ id h = id0).
  { unfold deleteHabit. cbv zeta.
    destruct (Nat.eqb_spec (List.length (filter (fun h => negb (String.eqb (id h) id0)) (habits st)))
                (List.length (habits st))) as [E | E]; simpl.
    - split; [discriminate |]. intros (h & Hh & Hid).
      apply length_filter_eq_iff with (x := h) in E; [| exact Hh].
      rewrite Hid, String.eqb_refl in E. discriminate.
    - split; [intros _ | reflexivity].
      destruct (filter_dropped_witness _ _ E) as (h & Hh & Hp). exists h. split; [exact Hh |].
      apply negb_false_iff, String.eqb_eq in Hp. exact Hp. }
  split; [exact Hfst |]. intros Ht. cbv zeta.
  assert (Hst : snd (deleteHabit st id0) =
    mkHabitAppState (filter (fun h => negb (String.eqb (id h) id0)) (habits st))
      (filter (fun log => negb (String.eqb (habitId log) id0)) (logs st)) (settings st)).
  { unfold deleteHabit in *. cbv zeta in *.
    destruct (Nat.eqb _ _); [discriminate | reflexivity]. }
  rewrite Hst. clear Ht Hst Hfst.
  assert (Hh : forall h, In h (filter (fun h => negb (String.eqb (id h) id0)) (habits st)) -> id h <> id0).
  { intros h Hin E. apply filter_In in Hin as [_ Hn]. rewrite E, String.eqb_refl in Hn. discriminate. }
  split; [exact Hh |]. split.
  - intros l Hin E. apply filter_In in Hin as [_ Hn]. simpl in Hn.
    rewrite E, String.eqb_refl in Hn. discriminate.
  - intros year habitFilter d s Hs.
    destruct (status_traced _ _ _ _ _ _ Hs) as (Hc & Hl & Ht).
    split; [| split; [exact Hl | split; [exact Ht |]]].
    + intros c Hin. destruct (Hc c Hin) as (h & l & H1 & H2 & H3 & H4 & H5 & H6).
      apply activeHabits_incl in H1.
      exists h, l. repeat split; auto.
    + intros h Hin. apply activeHabits_incl in Hin. auto.
Qed.

(** ** C6: creating a habit *)

(** C6: [createHabit] called with a reminder (as [HabitForm] does when the
    reminder toggle is on) returns, and appends, a habit without it: the
    object literal of the source copies [name], [color] and [mandatory] only. *)
Lemma C6_createHabit_drops_reminder :
  let data := CreateHabitData.mk "Leer" "#3b82f6" false (Some (mkHabitReminder true "08:00")) in
  let '(newHabit, st') := createHabit scenario_state data "id-new" "2024-06-01T08:00:00.000Z" in
  reminder newHabit = None /\
  CreateHabitData.reminder data = Some (mkHabitReminder true "08:00") /\
  habits st' = habits scenario_state ++ [newHabit].
Proof. vm_compute. auto. Qed.

(** ** C8: updating a habit *)

(** C8: with no habit of id [id0], [updateHabit] returns [None] and leaves
    the state as it is; otherwise the first habit with that id is replaced,
    at its index, by the merge of [updates] into it, where each field given in
    [updates] takes the new value and every other field (among them [id] and
    [createdAt]) keeps the old one; the other habits and the log are
    unchanged, and the merged habit is returned. *)
Theorem C8_update_merges_fields (st : HabitAppState) (id0 : string) (u : UpdateHabitData.t) :
  ((forall h, In h (habits st) -> id h <> id0) -> updateHabit st id0 u = (None, st)) /\
  (forall h, In h (habits st) -> id h = id0 ->
   exists i h0,
     nth_error (habits st) i = Some h0 /\ id h0 = id0 /\
     (forall j h1, j < i -> nth_error (habits st) j = Some h1 -> id h1 <> id0) /\
     fst (updateHabit st id0 u) = Some (merge u h0) /\
     nth_error (habits (snd (updateHabit st id0 u))) i = Some (merge u h0) /\
     (forall j, j <> i -> nth_error (habits (snd (updateHabit st id0 u))) j = nth_error (habits st) j) /\
     List.length (habits (snd (updateHabit st id0 u))) = List.length (habits st) /\
     logs (snd (updateHabit st id0 u)) = logs st /\
     id (merge u h0) = id h0 /\ createdAt (merge u h0) = createdAt h0 /\
     name (merge u h0) = match UpdateHabitData.name u with Some v => v | None => name h0 end /\
     color (merge u h0) = match UpdateHabitData.color u with Some v => v | None => color h0 end /\
     mandatory (merge u h0)
       = match UpdateHabitData.mandatory u with Some v => v | None => mandatory h0 end /\
     reminder (merge u h0)
       = match UpdateHabitData.reminder u with Some v => v | None => reminder h0 end).
Proof.
  split.
  - intros Hn. unfold updateHabit.
    replace (findIndex _ (habits st)) with (@None nat); [reflexivity |].
    symmetry. apply findIndex_None. intros x Hx. apply String.eqb_neq, Hn, Hx.
  - intros h Hh Hid. unfold updateHabit.
    destruct (findIndex (fun h => String.eqb (id h) id0) (habits st)) as [i |] eqn:E.
    + destruct (findIndex_Some _ _ _ E) as (h0 & Hn & Hp & Hb).
      apply String.eqb_eq in Hp.
      exists i, h0. simpl.
      rewrite (modify_at_nth_same _ _ _ _ Hn).
      repeat split; auto.
      * intros j h1 Hj Hj1 E1. apply String.eqb_neq in E1; [exact E1 |].
        exact (Hb j h1 Hj Hj1).
      * intros j Hj. apply modify_at_nth_other. auto.
      * apply modify_at_length.
    + apply findIndex_None with (x := h) in E; [| exact Hh].
      rewrite Hid, String.eqb_refl in E. discriminate.
Qed.

(** * Witnesses *)

Lemma C1_entries_keyed_on_year_logs_witness :
  getDayStatusMap scenario_state 2023 [habit_a; habit_b] None = [].
Proof.
  apply (proj2 (C1_entries_keyed_on_year_logs scenario_state 2023 [habit_a; habit_b] None "2023-01-01")).
  vm_compute. reflexivity.
Defined.

(** Scenario 2 of the spec: the filter ["b"]. *)
Lemma C2_colors_counters_totals_witness :
  map_get "2024-01-01" (getDayStatusMap scenario_state 2024 [habit_a; habit_b] (Some ["b"]))
    = Some (DayStatus.mk "2024-01-01" 0 0 0 1 [] (Some true)) /\
  0 + 1 = List.length (filter (fun h => includes ["b"] (id h)) [habit_a; habit_b]).
Proof.
  split; [vm_compute; reflexivity |].
  exact (proj2 (proj2 (C2_colors_counters_totals scenario_state 2024 [habit_a; habit_b]
           (Some ["b"]) "2024-01-01" (DayStatus.mk "2024-01-01" 0 0 0 1 [] (Some true))
           ltac:(vm_compute; reflexivity))) ["b"] eq_refl ltac:(discriminate)).
Defined.

(** Scenario 3 of the spec: deleting habit "a". *)
Lemma C5_delete_cascade_witness :
  fst (deleteHabit scenario_state "a") = true /\
  (forall l, In l (logs (snd (deleteHabit scenario_state "a"))) -> habitId l <> "a").
Proof.
  split; [vm_compute; reflexivity |].
  exact (proj1 (proj2 (proj2 (C5_delete_cascade scenario_state "a") ltac:(vm_compute; reflexivity)))).
Defined.

Lemma C8_update_merges_fields_witness :
  exists i h0, nth_error (habits scenario_state) i = Some h0 /\ id h0 = "a" /\
    fst (updateHabit scenario_state "a" (UpdateHabitData.mk (Some "Correr") None None None))
      = Some (merge (UpdateHabitData.mk (Some "Correr") None None None) h0).
Proof.
  destruct (proj2 (C8_update_merges_fields scenario_state "a"
             (UpdateHabitData.mk (Some "Correr") None None None)) habit_a
             (or_introl eq_refl) eq_refl) as (i & h0 & H1 & H2 & _ & H4 & _).
  exists i, h0. auto.
Defined.

Lemma C9_no_vacuous_mandatory_completion_witness :
  DayCell.dotStyle (Some (DayStatus.mk "2024-01-01" 0 0 1 2 ["#0f0"] (Some false))) false
    <> DayCell.Primary.
Proof.
  exact (proj1 (proj1 C9_no_vacuous_mandatory_completion
           (DayStatus.mk "2024-01-01" 0 0 1 2 ["#0f0"] (Some false)) false eq_refl)).
Defined.

Lemma C10_counter_bounds_witness :
  List.length ["#f00"] = 1 + 0.
Proof.
  exact (proj1 (C10_counter_bounds scenario_state 2024 [habit_a; habit_b] None "2024-01-01"
           (DayStatus.mk "2024-01-01" 1 1 0 1 ["#f00"] None) ltac:(vm_compute; reflexivity))).
Defined.

(** * Further properties of the completion log *)

Import HabitLogServiceExtra.

Lemma matches_true h d x : matches h d x = true -> habitId x = h /\ date x = d.
Proof.
  unfold matches. intros E. apply andb_prop in E as [E1 E2].
  apply String.eqb_eq in E1, E2. auto.
Qed.

Lemma matches_other h d h' d' x :
  matches h d x = true -> (h', d') <> (h, d) -> matches h' d' x = false.
Proof.
  intros E Hne. apply matches_true in E as [E1 E2].
  destruct (matches h' d' x) eqn:E'; [| reflexivity].
  apply matches_true in E' as [E3 E4]. congruence.
Qed.

Lemma find_modify_other {A} (p : A -> bool) (f : A -> A) (l : list A) (i : nat) (x : A) :
  nth_error l i = Some x -> p x = false -> p (f x) = false ->
  find p (modify_at i f l) = find p l.
Proof.
  revert i. induction l as [| y r IH]; intros [| i] Hx Hp Hf; simpl in *; try discriminate.
  - injection Hx as ->. rewrite Hp, Hf. reflexivity.
  - destruct (p y); [reflexivity | apply IH; assumption].
Qed.

Lemma findIndex_snoc {A} (p : A -> bool) (l : list A) (x : A) :
  findIndex p l = None -> p x = true -> findIndex p (l ++ [x]) = Some (List.length l).
Proof.
  induction l as [| y r IH]; simpl; intros E Hx.
  - rewrite Hx. reflexivity.
  - destruct (p y); [discriminate |].
    destruct (findIndex p r); [discriminate |]. rewrite IH; auto.
Qed.

Lemma modify_at_snoc {A} (f : A -> A) (l : list A) (x : A) :
  modify_at (List.length l) f (l ++ [x]) = l ++ [f x].
Proof. induction l as [| y r IH]; simpl; [reflexivity | rewrite IH; reflexivity]. Qed.

Lemma modify_at_twice {A} (i : nat) (f g : A -> A) (l : list A) :
  modify_at i f (modify_at i g l) = modify_at i (fun x => f (g x)) l.
Proof.
  revert i. induction l as [| y r IH]; intros [| i]; simpl; auto. rewrite IH. reflexivity.
Qed.

(** X1: after [setCompletion h d b], [isCompleted h d] is [b]. *)
Theorem setCompletion_isCompleted (st : HabitAppState) (h d : string) (b : bool) :
  isCompleted (setCompletion st h d b) h d = b.
Proof.
  unfold setCompletion, isCompleted, getLogs, with_logs.
  destruct (findIndex (matches h d) (logs st)) as [i |] eqn:E; simpl.
  - destruct (find_modify_first _ (set_completed b) _ _ E (matches_set h d b))
      as (x & _ & _ & Hf & _).
    rewrite Hf. reflexivity.
  - assert (Hn : find (matches h d) (logs st) = None)
      by (apply find_None_iff, findIndex_None, E).
    rewrite find_app, Hn. simpl. rewrite matches_new. reflexivity.
Qed.

(** X2: [setCompletion] is idempotent: a second identical call saves the
    same state as the first. *)
Theorem setCompletion_idempotent (st : HabitAppState) (h d : string) (b : bool) :
  setCompletion (setCompletion st h d b) h d b = setCompletion st h d b.
Proof.
  unfold setCompletion at 2 3.
  destruct (findIndex (matches h d) (logs st)) as [i |] eqn:E.
  - unfold setCompletion, with_logs. simpl.
    destruct (find_modify_first _ (set_completed b) _ _ E (matches_set h d b))
      as (x & _ & _ & _ & Hi).
    rewrite Hi, modify_at_twice. reflexivity.
  - unfold setCompletion, with_logs. simpl.
    rewrite (findIndex_snoc _ _ _ E (matches_new h d b)), modify_at_snoc. reflexivity.
Qed.

(** X3: writing the entry of (h, d), by [setCompletion] or
    [toggleCompletion], leaves [isCompleted] of every other pair unchanged. *)
Theorem writes_frame (st : HabitAppState) (h d h' d' : string) (b : bool) :
  (h', d') <> (h, d) ->
  isCompleted (setCompletion st h d b) h' d' = isCompleted st h' d' /\
  isCompleted (snd (toggleCompletion st h d)) h' d' = isCompleted st h' d'.
Proof.
  intros Hne.
  unfold setCompletion, toggleCompletion, isCompleted, getLogs, with_logs.
  destruct (findIndex (matches h d) (logs st)) as [i |] eqn:E; simpl.
  - destruct (findIndex_Some _ _ _ E) as (x & Hx & Hp & _).
    pose proof (matches_other _ _ _ _ _ Hp Hne) as Ho.
    rewrite (find_modify_other _ _ _ _ _ Hx Ho) by (rewrite matches_set; exact Ho).
    rewrite (find_modify_other _ _ _ _ _ Hx Ho) by (rewrite matches_flip; exact Ho).
    auto.
  - rewrite !find_app.
    assert (Hn : forall c, matches h' d' (mkHabitLog h d c) = false)
      by (intros c; apply (matches_other h d); [apply matches_new | exact Hne]).
    destruct (find (matches h' d') (logs st)); simpl; rewrite ?Hn; auto.
Qed.

Lemma writes_frame_witness :
  ("b", "2024-01-01") <> ("a", "2024-01-01") /\
  isCompleted (setCompletion scenario_state "a" "2024-01-01" false) "b" "2024-01-01" =
    isCompleted scenario_state "b" "2024-01-01" /\
  isCompleted (snd (toggleCompletion scenario_state "a" "2024-01-01")) "b" "2024-01-01" =
    isCompleted scenario_state "b" "2024-01-01".
Proof. split; [discriminate | apply writes_frame; discriminate]. Defined.

Lemma str_append_assoc (a b c : string) :
  String.append a (String.append b c) = String.append (String.append a b) c.
Proof. induction a as [| x a IH]; simpl; [reflexivity | rewrite IH; reflexivity]. Qed.

Lemma prefix_append_self (a b : string) : String.prefix a (String.append a b) = true.
Proof.
  induction a as [| x a IH]; simpl; [destruct b; reflexivity |].
  destruct (ascii_dec x x) as [_ | n]; [exact IH | contradiction n; reflexivity].
Qed.

Lemma prefix_append_l (a b s : string) :
  String.prefix (String.append a b) s = true -> String.prefix a s = true.
Proof.
  revert s. induction a as [| x a IH]; intros s H; simpl in *.
  - destruct s; reflexivity.
  - destruct s as [| y s]; [discriminate |]. simpl in *.
    destruct (ascii_dec x y); [apply IH; exact H | discriminate].
Qed.

Lemma prefix_append3 (a b c e : string) :
  String.prefix (String.append a (String.append b c))
                (String.append a (String.append b (String.append c e))) = true.
Proof.
  rewrite (str_append_assoc b c e), (str_append_assoc a (String.append b c) e).
  apply prefix_append_self.
Qed.

(** X4: every log [getLogsForMonth year month] returns is also returned by
    [getLogsForYear year]. *)
Theorem month_logs_in_year (st : HabitAppState) (year month : nat) :
  incl (getLogsForMonth st year month) (getLogsForYear st year).
Proof.
  unfold getLogsForMonth, getLogsForYear. intros l Hl.
  apply filter_In in Hl as [Hin Hp]. apply filter_In. split; [exact Hin |].
  rewrite str_append_assoc in Hp. exact (prefix_append_l _ _ _ Hp).
Qed.

(** X5: a log dated with [formatDate dt] is selected both by the year and
    by the month (1-based) of [dt]. *)
Theorem formatDate_selected (st : HabitAppState) (dt : JsDate) (l : HabitLog) :
  In l (logs st) -> date l = formatDate dt ->
  In l (getLogsForYear st (fullYear dt)) /\
  In l (getLogsForMonth st (fullYear dt) (monthIndex dt + 1)).
Proof.
  intros Hin Hd. unfold getLogsForYear, getLogsForMonth, getLogs.
  rewrite !filter_In, Hd. unfold formatDate.
  split; split; try exact Hin.
  - rewrite str_append_assoc. apply prefix_append_self.
  - apply prefix_append3.
Qed.

Lemma formatDate_selected_witness :
  In (mkHabitLog "a" "2024-01-05" true)
     (getLogsForYear (with_logs scenario_state [mkHabitLog "a" "2024-01-05" true]) 2024) /\
  In (mkHabitLog "a" "2024-01-05" true)
     (getLogsForMonth (with_logs scenario_state [mkHabitLog "a" "2024-01-05" true]) 2024 1).
Proof.
  apply (formatDate_selected (with_logs scenario_state [mkHabitLog "a" "2024-01-05" true])
           (mkJsDate 2024 0 5)); simpl; [left; reflexivity | vm_compute; reflexivity].
Defined.

(** X6: a log whose date does not start with ["<year>-"] has no influence
    on [getDayStatusMap] for that year, wherever it sits in the log. *)
Theorem other_year_log_irrelevant (st : HabitAppState) (year : nat)
    (habits0 : list Habit) (habitFilter : option (list string))
    (pre post : list HabitLog) (l : HabitLog) :
  logs st = pre ++ l :: post ->
  String.prefix (String.append (string_of_nat year) "-") (date l) = false ->
  getDayStatusMap (with_logs st (pre ++ post)) year habits0 habitFilter =
  getDayStatusMap st year habits0 habitFilter.
Proof.
  intros Hl Hp. unfold getDayStatusMap, getLogsForYear, getLogs, with_logs. simpl.
  rewrite Hl, !filter_app. simpl. rewrite Hp. reflexivity.
Qed.

Lemma other_year_log_irrelevant_witness :
  let l := mkHabitLog "a" "2023-12-31" true in
  logs (with_logs scenario_state (logs scenario_state ++ [l])) = logs scenario_state ++ l :: [] /\
  getDayStatusMap (with_logs (with_logs scenario_state (logs scenario_state ++ [l]))
                             (logs scenario_state ++ [])) 2024 [habit_a; habit_b] None =
  getDayStatusMap (with_logs scenario_state (logs scenario_state ++ [l])) 2024
                  [habit_a; habit_b] None.
Proof.
  intros l. split; [reflexivity |].
  apply other_year_log_irrelevant with (l := l); [reflexivity | vm_compute; reflexivity].
Defined.

(** * Further properties of the day-status aggregation *)

(** A status with its [isFiltered] field replaced. *)
Definition withIsFiltered (v : option bool) (s : DayStatus.t) : DayStatus.t :=
  DayStatus.mk (DayStatus.date s) (DayStatus.mandatoryCompleted s) (DayStatus.mandatoryTotal s)
    (DayStatus.optionalCompleted s) (DayStatus.optionalTotal s)
    (DayStatus.completedColors s) v.

Definition map_values {V W} (g : V -> W) (m : list (string * V)) : list (string * W) :=
  map (fun e => (fst e, g (snd e))) m.

Lemma map_values_set {V W} (g : V -> W) (k : string) (v : V) (m : list (string * V)) :
  map_values g (map_set k v m) = map_set k (g v) (map_values g m).
Proof.
  unfold map_values. induction m as [| [k0 v0] r IH]; simpl; [reflexivity |].
  destruct (String.eqb k k0); simpl; [reflexivity | rewrite IH; reflexivity].
Qed.

Lemma fold_left_commute {A B C} (f : A -> C -> A) (f' : B -> C -> B) (g : B -> A)
  (l : list C) (b : B) :
  (forall b0 c, f (g b0) c = g (f' b0 c)) -> fold_left f l (g b) = g (fold_left f' l b).
Proof.
  intros H. revert b. induction l as [| c r IH]; intros b; simpl; [| rewrite H]; auto.
Qed.

Lemma fold_map_set_NoDup {V W : Type} (F : string -> V -> W) (G : list (string * V))
  (m0 : list (string * W)) :
  NoDup (map fst m0) ->
  NoDup (map fst (fold_left (fun sm (e : string * V) => map_set (fst e) (F (fst e) (snd e)) sm) G m0)).
Proof.
  revert m0. induction G as [| e G IH]; simpl; intros m0 Hnd; [exact Hnd |].
  apply IH, map_set_NoDup, Hnd.
Qed.

Lemma length_filter_sub {A} (p q : A -> bool) (l : list A) :
  (forall x, p x = true -> q x = true) ->
  List.length (filter p l) <= List.length (filter q l).
Proof.
  intros H. induction l as [| x r IH]; simpl; [lia |].
  destruct (p x) eqn:Ep; [rewrite (H x Ep); simpl; lia |].
  destruct (q x); simpl; lia.
Qed.

Lemma find_id_filter (f : list string) (x : string) (hs : list Habit) :
  includes f x = true ->
  find (fun h => String.eqb (id h) x) (filter (fun h => includes f (id h)) hs)
  = find (fun h => String.eqb (id h) x) hs.
Proof.
  intros Hx. induction hs as [| h r IH]; simpl; [reflexivity |].
  destruct (includes f (id h)) eqn:Ei; simpl; [destruct (String.eqb (id h) x); auto |].
  destruct (String.eqb_spec (id h) x) as [E | _]; [congruence | exact IH].
Qed.

Lemma nonempty_ltb (f : list string) : f <> [] -> Nat.ltb 0 (List.length f) = true.
Proof. destruct f; [contradiction | reflexivity]. Qed.

(** X7: the value of [isFiltered] in a status of the result: with a filter
    given, whether it is non-empty; with no filter, [undefined] when the date
    has a completed colour and [false] otherwise. *)
Theorem isFiltered_value st year habits0 habitFilter d s :
  map_get d (getDayStatusMap st year habits0 habitFilter) = Some s ->
  DayStatus.isFiltered s =
  match habitFilter with
  | Some f => Some (Nat.ltb 0 (List.length f))
  | None => if Nat.ltb 0 (List.length (DayStatus.completedColors s)) then None else Some false
  end.
Proof.
  intros Hs. rewrite getDayStatusMap_get in Hs. cbv zeta in Hs.
  destruct (existsb _ _); [injection Hs as <- | discriminate].
  rewrite status_of_eq. simpl.
  destruct habitFilter as [f |]; simpl;
    [destruct (Nat.ltb 0 (List.length f)); rewrite ?orb_true_r, ?orb_false_r |];
    try match goal with
    | |- context [Nat.ltb 0 (List.length (flat_map ?g ?l))] =>
        destruct (Nat.ltb 0 (List.length (flat_map g l)))
    end; reflexivity.
Qed.

Lemma isFiltered_value_witness :
  DayStatus.isFiltered (DayStatus.mk "2024-01-01" 1 1 0 1 ["#f00"] None) = None.
Proof.
  exact (isFiltered_value scenario_state 2024 [habit_a; habit_b] None "2024-01-01"
           (DayStatus.mk "2024-01-01" 1 1 0 1 ["#f00"] None) ltac:(vm_compute; reflexivity)).
Defined.

(** X8: an empty filter array selects the same dates, counters, totals and
    colours as no filter; only [isFiltered] differs, and is always [false]. *)
Theorem empty_filter_as_none st year habits0 d :
  map_get d (getDayStatusMap st year habits0 (Some []))
  = option_map (withIsFiltered (Some false)) (map_get d (getDayStatusMap st year habits0 None)).
Proof.
  rewrite !getDayStatusMap_get. cbv zeta. unfold activeLogs, activeHabits. simpl Nat.ltb.
  destruct (existsb _ _); [| reflexivity]. simpl.
  rewrite !status_of_eq. unfold withIsFiltered. simpl.
  match goal with
    | |- context [Nat.ltb 0 (List.length (flat_map ?g ?l))] =>
        destruct (Nat.ltb 0 (List.length (flat_map g l)))
    end; reflexivity.
Qed.

(** X9: the older aggregator of src/unnamed/part_007, which takes no filter,
    returns the same map, in the same order, as the filtering one called
    without a filter, except that every [isFiltered] is [undefined]. *)
Theorem v1_matches_unfiltered st year habits0 :
  HabitLogServiceV1.getDayStatusMap st year habits0
  = map_values (withIsFiltered None) (getDayStatusMap st year habits0 None).
Proof.
  unfold HabitLogServiceV1.getDayStatusMap, getDayStatusMap. cbv zeta.
  change (@nil (string * DayStatus.t)) with (map_values (withIsFiltered None) []) at 1.
  apply fold_left_commute. intros sm [d L].
  rewrite date_step_eq, map_values_set.
  unfold HabitLogServiceV1.date_step, status_of, withIsFiltered. simpl.
  destruct (fold_left (count_step habits0) L (0, 0, [])) as [[mc oc] cols]. reflexivity.
Qed.

(** X10: the result has one entry per date, and the [date] field of each
    status equals its key. *)
Theorem result_keys_consistent st year habits0 habitFilter :
  NoDup (map fst (getDayStatusMap st year habits0 habitFilter)) /\
  (forall d s, map_get d (getDayStatusMap st year habits0 habitFilter) = Some s ->
     DayStatus.date s = d).
Proof.
  split.
  - unfold getDayStatusMap. cbv zeta.
    rewrite (fold_left_ext_pt _
      (fun sm (e : string * list HabitLog) =>
         map_set (fst e) (status_of habitFilter (activeHabits habitFilter habits0)
                            (fst e) (snd e)) sm))
      by (intros sm [k v]; apply date_step_eq).
    apply fold_map_set_NoDup. constructor.
  - intros d s Hs. rewrite getDayStatusMap_get in Hs. cbv zeta in Hs.
    destruct (existsb _ _); [injection Hs as <- | discriminate].
    rewrite status_of_eq. reflexivity.
Qed.

(** X11: every status of the result carries the same totals: the numbers
    of mandatory and of optional habits among the active habits. *)
Theorem totals_per_active_habits st year habits0 habitFilter d s :
  map_get d (getDayStatusMap st year habits0 habitFilter) = Some s ->
  DayStatus.mandatoryTotal s
    = List.length (filter (fun h => mandatory h) (activeHabits habitFilter habits0)) /\
  DayStatus.optionalTotal s
    = List.length (filter (fun h => negb (mandatory h)) (activeHabits habitFilter habits0)).
Proof.
  intros Hs. rewrite getDayStatusMap_get in Hs. cbv zeta in Hs.
  destruct (existsb _ _); [injection Hs as <- | discriminate].
  rewrite status_of_eq. split; reflexivity.
Qed.

Lemma totals_per_active_habits_witness :
  DayStatus.mandatoryTotal (DayStatus.mk "2024-01-01" 1 1 0 1 ["#f00"] None)
    = List.length (filter (fun h => mandatory h) (activeHabits None [habit_a; habit_b])) /\
  DayStatus.optionalTotal (DayStatus.mk "2024-01-01" 1 1 0 1 ["#f00"] None)
    = List.length (filter (fun h => negb (mandatory h)) (activeHabits None [habit_a; habit_b])).
Proof.
  exact (totals_per_active_habits scenario_state 2024 [habit_a; habit_b] None "2024-01-01"
           (DayStatus.mk "2024-01-01" 1 1 0 1 ["#f00"] None) ltac:(vm_compute; reflexivity)).
Defined.

(** X12: a non-empty filter only narrows the result: every date it keeps is
    also in the unfiltered result, with counters and totals no larger. *)
Theorem filter_narrows st year habits0 f d s1 :
  f <> [] ->
  map_get d (getDayStatusMap st year habits0 (Some f)) = Some s1 ->
  exists s0, map_get d (getDayStatusMap st year habits0 None) = Some s0 /\
    DayStatus.mandatoryCompleted s1 <= DayStatus.mandatoryCompleted s0 /\
    DayStatus.optionalCompleted s1 <= DayStatus.optionalCompleted s0 /\
    DayStatus.mandatoryTotal s1 <= DayStatus.mandatoryTotal s0 /\
    DayStatus.optionalTotal s1 <= DayStatus.optionalTotal s0.
Proof.
  intros Hf Hs. pose proof (nonempty_ltb f Hf) as Hlt.
  rewrite getDayStatusMap_get in Hs |- *. cbv zeta in Hs |- *.
  destruct (existsb (onDate d) (activeLogs (Some f) _)) eqn:Ex; [injection Hs as <- | discriminate].
  assert (Ex0 : existsb (onDate d) (activeLogs None (getLogsForYear st year)) = true).
  { apply existsb_exists in Ex as (l & Hl & Hd). apply existsb_exists. exists l.
    split; [| exact Hd]. apply in_activeLogs in Hl as (H1 & H2 & _).
    apply in_activeLogs. repeat split; auto. discriminate. }
  rewrite Ex0. eexists; split; [reflexivity |].
  rewrite (dateLogs_eq st year (Some f)), (dateLogs_eq st year None), !status_of_eq.
  cbn [DayStatus.mandatoryCompleted DayStatus.optionalCompleted
       DayStatus.mandatoryTotal DayStatus.optionalTotal activeHabits].
  rewrite Hlt.
  set (act := filter (fun h => includes f (id h)) habits0).
  assert (Hres : forall l, keep year (Some f) d l = true ->
            keep year None d l = true /\ resolve act l = resolve habits0 l).
  { intros l Hk. unfold keep in *. rewrite Hlt in Hk.
    apply andb_prop in Hk as [Hk Hd]. apply andb_prop in Hk as [Hp Hi].
    rewrite Hp, Hd. split; [reflexivity |].
    unfold resolve, act. destruct (completed l); [apply find_id_filter, Hi | reflexivity]. }
  refine (conj _ (conj _ (conj _ _))).
  - rewrite !filter_filter_and. apply length_filter_sub. intros l Hl.
    apply andb_prop in Hl as [Hk Hm]. destruct (Hres l Hk) as [Hk0 Hr].
    unfold resolvesMandatory in *. rewrite Hr in Hm. rewrite Hk0, Hm. reflexivity.
  - rewrite !filter_filter_and. apply length_filter_sub. intros l Hl.
    apply andb_prop in Hl as [Hk Hm]. destruct (Hres l Hk) as [Hk0 Hr].
    unfold resolvesOptional in *. rewrite Hr in Hm. rewrite Hk0, Hm. reflexivity.
  - unfold act. rewrite filter_filter_and. apply length_filter_sub. intros h Hh.
    apply andb_prop in Hh as [_ Hm]. exact Hm.
  - unfold act. rewrite filter_filter_and. apply length_filter_sub. intros h Hh.
    apply andb_prop in Hh as [_ Hm]. exact Hm.
Qed.

Lemma filter_narrows_witness :
  exists s0, map_get "2024-01-01" (getDayStatusMap scenario_state 2024 [habit_a; habit_b] None)
               = Some s0 /\
    0 <= DayStatus.mandatoryCompleted s0 /\ 0 <= DayStatus.optionalCompleted s0 /\
    0 <= DayStatus.mandatoryTotal s0 /\ 1 <= DayStatus.optionalTotal s0.
Proof.
  exact (filter_narrows scenario_state 2024 [habit_a; habit_b] ["b"] "2024-01-01"
           (DayStatus.mk "2024-01-01" 0 0 0 1 [] (Some true))
           ltac:(discriminate) ltac:(vm_compute; reflexivity)).
Defined.

(** * Further properties of the day cell *)

(** X13: the dot is blue ([Primary]) exactly on a past or present day whose
    status is not painted with filter colours, has at least one mandatory
    habit, all of them completed, no optional completion, and at least one
    optional habit. *)
Theorem dotStyle_Primary_iff (s : DayStatus.t) (isFuture : bool) :
  DayCell.dotStyle (Some s) isFuture = DayCell.Primary <->
  isFuture = false /\
  (truthy (DayStatus.isFiltered s) = false \/ DayStatus.completedColors s = []) /\
  0 < DayStatus.mandatoryTotal s /\
  DayStatus.mandatoryCompleted s = DayStatus.mandatoryTotal s /\
  DayStatus.optionalCompleted s = 0 /\ 0 < DayStatus.optionalTotal s.
Proof.
  destruct s as [d mc mT oc oT cols f]. unfold DayCell.dotStyle. simpl.
  destruct isFuture; [split; [discriminate | intros (H & _); discriminate] |].
  destruct (truthy f && Nat.ltb 0 (List.length cols)) eqn:Ef.
  - split; [destruct cols as [| c [| c' r]]; discriminate |].
    intros (_ & [H | H] & _); rewrite H in Ef; simpl in Ef;
      rewrite ?andb_false_r in Ef; discriminate.
  - assert (Hc : truthy f = false \/ cols = []).
    { destruct (truthy f), cols; simpl in Ef; auto; discriminate. }
    destruct (Nat.ltb_spec 0 (mT + oT)) as [T1 | T1], (Nat.eqb_spec (mc + oc) (mT + oT)) as [T2 | T2],
      (Nat.ltb_spec 0 mT) as [T3 | T3], (Nat.eqb_spec mc mT) as [T4 | T4],
      (Nat.ltb_spec 0 oc) as [T5 | T5], (Nat.ltb_spec 0 oT) as [T6 | T6],
      (Nat.eqb_spec oc oT) as [T7 | T7], (Nat.eqb_spec (mc + oc) 0) as [T8 | T8],
      (Nat.ltb_spec 0 (mc + oc)) as [T9 | T9];
    simpl; (split; [intros HH | intros (_ & _ & H1 & H2 & H3 & H4)]);
    try reflexivity; try discriminate; try lia;
    split; [reflexivity | split; [exact Hc | lia]].
Qed.

(** X14: on a day cell the red missing-mandatory mark and the celebration
    flag are never shown together; and on a past or present day with at
    least one mandatory habit, no filter colours and no more mandatory
    completions than mandatory habits, one of the two is shown. *)
Theorem missing_xor_complete (s : DayStatus.t) (isFuture : bool) :
  negb (DayCell.hasMissingMandatory (Some s) isFuture &&
        DayCell.allMandatoryComplete (Some s) isFuture) = true /\
  (isFuture = false -> 0 < DayStatus.mandatoryTotal s ->
   truthy (DayStatus.isFiltered s) = false ->
   DayStatus.mandatoryCompleted s <= DayStatus.mandatoryTotal s ->
   DayCell.hasMissingMandatory (Some s) isFuture ||
   DayCell.allMandatoryComplete (Some s) isFuture = true).
Proof.
  destruct s as [d mc mT oc oT cols f].
  unfold DayCell.hasMissingMandatory, DayCell.allMandatoryComplete. simpl.
  split.
  - destruct (Nat.ltb_spec mc mT), (Nat.eqb_spec mc mT); try lia;
      rewrite ?andb_false_r, ?andb_false_l; simpl; rewrite ?andb_false_r; reflexivity.
  - intros -> HmT Hf Hle. rewrite Hf.
    destruct (Nat.ltb_spec 0 mT); [| lia].
    destruct (Nat.ltb_spec mc mT); [reflexivity |].
    assert (mc = mT) as -> by lia. rewrite Nat.eqb_refl. reflexivity.
Qed.

Lemma missing_xor_complete_witness :
  DayCell.hasMissingMandatory (Some (DayStatus.mk "2024-01-02" 0 1 0 1 [] (Some false))) false ||
  DayCell.allMandatoryComplete (Some (DayStatus.mk "2024-01-02" 0 1 0 1 [] (Some false))) false
  = true.
Proof.
  apply (proj2 (missing_xor_complete (DayStatus.mk "2024-01-02" 0 1 0 1 [] (Some false)) false));
    simpl; [reflexivity | lia | reflexivity | lia].
Defined.

(** * Further properties of the habit filter and the habit registry *)

Import HabitContext HabitServiceExtra.



Lemma filter_all {A} (p : A -> bool) (l : list A) :
  (forall x, In x l -> p x = true) -> filter p l = l.
Proof.
  induction l as [| x r IH]; simpl; intros H; [reflexivity |].
  rewrite (H x (or_introl eq_refl)), IH by auto. reflexivity.
Qed.

(** X16: toggling an absent id twice gives back the previous selection. *)
Theorem toggleHabitFilter_twice (prev : list string) (h : string) :
  ~ In h prev -> toggleHabitFilter (toggleHabitFilter prev h) h = prev.
Proof.
  intros Hn. unfold toggleHabitFilter.
  assert (Ei : includes prev h = false)
    by (destruct (includes prev h) eqn:E; [apply includes_In in E; contradiction | reflexivity]).
  rewrite Ei.
  assert (Ei' : includes (prev ++ [h]) h = true)
    by (apply includes_In, in_app_iff; right; left; reflexivity).
  rewrite Ei', filter_app. simpl. rewrite String.eqb_refl. simpl.
  rewrite app_nil_r. apply filter_all.
  intros x Hx. destruct (String.eqb_spec x h); [subst; contradiction | reflexivity].
Qed.

Lemma toggleHabitFilter_twice_witness :
  toggleHabitFilter (toggleHabitFilter ["a"] "b") "b" = ["a"].
Proof. apply toggleHabitFilter_twice. simpl. intuition discriminate. Defined.

Lemma find_id_filter_other (hs : list Habit) (x id0 : string) :
  x <> id0 ->
  find (fun h => String.eqb (id h) x) (filter (fun h => negb (String.eqb (id h) id0)) hs)
  = find (fun h => String.eqb (id h) x) hs.
Proof.
  intros Hne. induction hs as [| h r IH]; simpl; [reflexivity |].
  destruct (String.eqb_spec (id h) id0) as [E | _]; simpl.
  - destruct (String.eqb_spec (id h) x); [congruence | exact IH].
  - destruct (String.eqb (id h) x); [reflexivity | exact IH].
Qed.

(** X17: deleting an id no habit has reports [false] and leaves the whole
    state, log entries under that id included, as it was. *)
Theorem deleteHabit_unknown (st : HabitAppState) (id0 : string) :
  (forall h, In h (habits st) -> id h <> id0) -> deleteHabit st id0 = (false, st).
Proof.
  intros H. unfold deleteHabit.
  rewrite (filter_all _ (habits st)), Nat.eqb_refl; [reflexivity |].
  intros h Hh. destruct (String.eqb_spec (id h) id0); [exfalso; exact (H h Hh e) | reflexivity].
Qed.

Lemma deleteHabit_unknown_witness :
  deleteHabit scenario_state "zz" = (false, scenario_state).
Proof.
  apply deleteHabit_unknown. intros h Hh. simpl in Hh.
  destruct Hh as [<- | [<- | []]]; simpl; discriminate.
Defined.

(** X18: after a delete that reports [true], looking the id up finds no
    habit, no log entry and no completion, while lookups of every other id
    give what they gave before. *)
Theorem deleteHabit_lookups (st : HabitAppState) (id0 : string) :
  fst (deleteHabit st id0) = true ->
  let st' := snd (deleteHabit st id0) in
  getHabitById st' id0 = None /\ getLogsForHabit st' id0 = [] /\
  (forall d, isCompleted st' id0 d = false) /\
  (forall x, x <> id0 ->
     getHabitById st' x = getHabitById st x /\
     getLogsForHabit st' x = getLogsForHabit st x /\
     (forall d, isCompleted st' x d = isCompleted st x d)).
Proof.
  unfold deleteHabit. destruct (Nat.eqb _ _); [discriminate |]. intros _. cbv zeta. simpl.
  unfold getHabitById, getHabits, getLogsForHabit, isCompleted, getLogs. simpl.
  refine (conj _ (conj _ (conj _ _))).
  - apply find_None_iff. intros h Hh. apply filter_In in Hh as [_ Hh].
    destruct (String.eqb (id h) id0); [discriminate | reflexivity].
  - rewrite filter_filter_and. apply filter_none. intros l _.
    destruct (String.eqb (habitId l) id0); reflexivity.
  - intros d. destruct (find _ _) as [l |] eqn:Hf; [| reflexivity].
    apply find_some in Hf as [Hl Hm]. apply filter_In in Hl as [_ Hl].
    apply matches_true in Hm as [Hm _]. rewrite Hm, String.eqb_refl in Hl. discriminate.
  - intros x Hne. refine (conj _ (conj _ _)).
    + apply find_id_filter_other, Hne.
    + rewrite filter_filter_and. apply filter_ext_in. intros l _.
      destruct (String.eqb_spec (habitId l) x) as [E | _]; [| apply andb_false_r].
      rewrite E. apply String.eqb_neq in Hne. rewrite Hne. reflexivity.
    + intros d. induction (logs st) as [| l r IH]; simpl; [reflexivity |].
      destruct (String.eqb_spec (habitId l) id0) as [E | _]; simpl.
      * destruct (matches x d l) eqn:Hm; [| exact IH].
        apply matches_true in Hm as [Hm _]. congruence.
      * destruct (matches x d l); [reflexivity | exact IH].
Qed.

Lemma deleteHabit_lookups_witness :
  let st' := snd (deleteHabit scenario_state "a") in
  getHabitById st' "a" = None /\ getLogsForHabit st' "a" = [] /\
  (forall d, isCompleted st' "a" d = false) /\
  (forall x, x <> "a" ->
     getHabitById st' x = getHabitById scenario_state x /\
     getLogsForHabit st' x = getLogsForHabit scenario_state x /\
     (forall d, isCompleted st' x d = isCompleted scenario_state x d)).
Proof. apply deleteHabit_lookups. vm_compute. reflexivity. Defined.

(** X19: [createHabit] with an id no habit has makes the new habit the one
    found under that id, changes no other lookup, and leaves the log as it
    is. *)
Theorem createHabit_lookups (st : HabitAppState) (data : CreateHabitData.t) (newId now : string) :
  (forall h, In h (habits st) -> id h <> newId) ->
  let '(newHabit, st') := createHabit st data newId now in
  getHabitById st' newId = Some newHabit /\
  (forall x, x <> newId -> getHabitById st' x = getHabitById st x) /\
  logs st' = logs st.
Proof.
  intros Hfresh. simpl. unfold getHabitById, getHabits, with_habits. simpl.
  refine (conj _ (conj _ eq_refl)).
  - rewrite find_app.
    replace (find _ (habits st)) with (@None Habit).
    + simpl. rewrite String.eqb_refl. reflexivity.
    + symmetry. apply find_None_iff. intros h Hh.
      destruct (String.eqb_spec (id h) newId); [exfalso; exact (Hfresh h Hh e) | reflexivity].
  - intros x Hne. rewrite find_app. destruct (find _ (habits st)); [reflexivity |].
    simpl. destruct (String.eqb_spec newId x); [congruence | reflexivity].
Qed.

Lemma createHabit_lookups_witness :
  let '(newHabit, st') := createHabit scenario_state
    (CreateHabitData.mk "Leer" "#3b82f6" false None) "c" "2024-06-01T08:00:00.000Z" in
  getHabitById st' "c" = Some newHabit /\
  (forall x, x <> "c" -> getHabitById st' x = getHabitById scenario_state x) /\
  logs st' = logs scenario_state.
Proof.
  apply createHabit_lookups. intros h Hh. simpl in Hh.
  destruct Hh as [<- | [<- | []]]; simpl; discriminate.
Defined.

